(** * A circuit breaker for API handlers: model and verified properties

    Shallow embedding of [circuit_breaker/circuit.py].  The breaker object is
    a record of its attributes; every method is a function that takes the
    record and returns the updated one (explicit state passing for [self]).
    The clock [time.monotonic()] is read by the caller of each method and
    passed in as a rational number of seconds; clock values and durations
    are exact, the rounding of floating-point subtraction is not modelled. *)

From Stdlib Require Import ZArith QArith Qreduction Bool List String Lia Lqa.
From stdpp Require Import gmap.
Import ListNotations.

Local Open Scope Z_scope.

(** ** Python classes and [issubclass] *)

(** A class is its name together with the names on its method resolution
    order, itself first.  [issubclass(c, d)] holds when [d] is on the
    method resolution order of [c]. *)
Record PyClass := mkClass { cls_name : string; cls_mro : list string }.

Definition issubclass_of (c d : PyClass) : bool :=
  existsb (String.eqb (cls_name d)) (cls_mro c).

(** [issubclass(c, ds)] with a tuple [ds] of classes: some member matches. *)
Definition issubclass (c : PyClass) (ds : list PyClass) : bool :=
  existsb (issubclass_of c) ds.

Definition BaseException_cls : PyClass :=
  mkClass "BaseException" ["BaseException"; "object"]%string.
Definition Exception_cls : PyClass :=
  mkClass "Exception" ["Exception"; "BaseException"; "object"]%string.
Definition CircuitOpenError_cls : PyClass :=
  mkClass "CircuitOpenError"
    ["CircuitOpenError"; "Exception"; "BaseException"; "object"]%string.

(** ** class BreakerState(Enum) *)
Inductive BreakerState := CLOSED | OPEN | HALF_OPEN.

Definition BreakerState_eqb (a b : BreakerState) : bool :=
  match a, b with
  | CLOSED, CLOSED | OPEN, OPEN | HALF_OPEN, HALF_OPEN => true
  | _, _ => false
  end.

(** ** Truthiness and [x or default]

    The constructor and several guards test plain truthiness.  An optional
    argument is [None] when absent; a present value is falsy when it is the
    zero of its type: [0], [0.0], [timedelta(0)], the empty tuple, the empty
    string. *)
Definition truthy_int (x : option Z) : bool :=
  match x with Some n => negb (n =? 0) | None => false end.

Definition truthy_float (x : option Q) : bool :=
  match x with Some t => negb (Qeq_bool t 0) | None => false end.

Definition truthy_tuple {A} (x : option (list A)) : bool :=
  match x with Some (_ :: _) => true | _ => false end.

Definition truthy_str (x : option string) : bool :=
  match x with Some s => negb (String.eqb s EmptyString) | None => false end.

(** A [timedelta] is an exact number of microseconds. *)
Record timedelta := mkDelta { microseconds : Z }.

Definition timedelta_seconds (s : Z) : timedelta := mkDelta (s * 1000000).

Definition total_seconds (d : timedelta) : Q :=
  Qred (microseconds d # 1000000).

Definition truthy_timedelta (x : option timedelta) : bool :=
  match x with Some d => negb (microseconds d =? 0) | None => false end.

(** [a > b] on clock values. *)
Definition Qgtb (a b : Q) : bool := negb (Qle_bool a b).

(** ** Exceptions, outcomes and callables *)

(** Breaker objects live in a store and are named by a reference. *)
Definition ref := nat.

(** An exception instance: an application error of some class with its
    message, or the breaker's own [CircuitOpenError], whose only attribute
    [_circuit_breaker] refers to the breaker that raised it. *)
Inductive PyExc :=
| AppError (cls : PyClass) (msg : string)
| CircuitOpenError (_circuit_breaker : ref).

Definition type_of (e : PyExc) : PyClass :=
  match e with
  | AppError cls _ => cls
  | CircuitOpenError _ => CircuitOpenError_cls
  end.

Section Breaker.

Context {Args Value : Type}.

(** What a call produces: a returned value, the implicit [None] of a
    function body that ends without [return], or a raised exception. *)
Inductive Outcome :=
| Returned (v : Value)
| ReturnedNone
| Raised (e : PyExc).

(** A callable: its [__qualname__] and its behaviour on arguments.  The
    protected operation and the fallback are opaque; they do not touch the
    breaker. *)
Record PyFunc := mkFunc { __qualname__ : string; call : Args -> Outcome }.

(** Which callables a guarded call invoked, in order. *)
Inductive Event :=
| CalledFunc (a : Args)
| CalledFallback (a : Args).

(** ** class CircuitBreaker *)
Record CircuitBreaker := mkBreaker {
  _state : BreakerState;
  _failure_counter : Z;
  _max_failure_count : Z;
  _success_counter : Z;
  _min_success_count : Z;
  _timeout : Q;
  _handle_exceptions : list PyClass;
  _excluded_exceptions : option (list PyClass);
  _fallback_function : option PyFunc;
  name : option string;
  _start_time_open_state : option Q
}.

Definition FAILURE_COUNT : Z := 2.
Definition SUCCESS_COUNT : Z := 2.
Definition TIMEOUT : Q := total_seconds (timedelta_seconds 30).
Definition HANDLE_EXCEPTIONS : list PyClass := [Exception_cls].
Definition EXCLUDED_EXCEPTIONS : option (list PyClass) := None.
Definition FALLBACK_FUNCTION : option PyFunc := None.

Definition __init__
    (failure_count success_count : option Z) (timeout : option timedelta)
    (handle_exceptions excluded_exceptions : option (list PyClass))
    (fallback_function : option PyFunc) : CircuitBreaker :=
  {| _state := CLOSED;
     _failure_counter := 0;
     _max_failure_count :=
       match failure_count with
       | Some n => if truthy_int failure_count then n else FAILURE_COUNT
       | None => FAILURE_COUNT
       end;
     _success_counter := 0;
     _min_success_count :=
       match success_count with
       | Some n => if truthy_int success_count then n else SUCCESS_COUNT
       | None => SUCCESS_COUNT
       end;
     _timeout :=
       match timeout with
       | Some d => if truthy_timedelta timeout then total_seconds d else TIMEOUT
       | None => TIMEOUT
       end;
     _handle_exceptions :=
       match handle_exceptions with
       | Some l => if truthy_tuple handle_exceptions then l else HANDLE_EXCEPTIONS
       | None => HANDLE_EXCEPTIONS
       end;
     _excluded_exceptions :=
       if truthy_tuple excluded_exceptions then excluded_exceptions
       else EXCLUDED_EXCEPTIONS;
     _fallback_function :=
       match fallback_function with
       | Some f => fallback_function
       | None => FALLBACK_FUNCTION
       end;
     name := None;
     _start_time_open_state := None |}.

(** Attribute assignments [self.attr = v]. *)
Definition set_state (v : BreakerState) (self : CircuitBreaker) :=
  mkBreaker v (_failure_counter self) (_max_failure_count self)
    (_success_counter self) (_min_success_count self) (_timeout self)
    (_handle_exceptions self) (_excluded_exceptions self)
    (_fallback_function self) (name self) (_start_time_open_state self).

Definition set_failure_counter (v : Z) (self : CircuitBreaker) :=
  mkBreaker (_state self) v (_max_failure_count self)
    (_success_counter self) (_min_success_count self) (_timeout self)
    (_handle_exceptions self) (_excluded_exceptions self)
    (_fallback_function self) (name self) (_start_time_open_state self).

Definition set_success_counter (v : Z) (self : CircuitBreaker) :=
  mkBreaker (_state self) (_failure_counter self) (_max_failure_count self)
    v (_min_success_count self) (_timeout self)
    (_handle_exceptions self) (_excluded_exceptions self)
    (_fallback_function self) (name self) (_start_time_open_state self).

Definition set_name (v : option string) (self : CircuitBreaker) :=
  mkBreaker (_state self) (_failure_counter self) (_max_failure_count self)
    (_success_counter self) (_min_success_count self) (_timeout self)
    (_handle_exceptions self) (_excluded_exceptions self)
    (_fallback_function self) v (_start_time_open_state self).

Definition set_start_time_open_state (v : option Q) (self : CircuitBreaker) :=
  mkBreaker (_state self) (_failure_counter self) (_max_failure_count self)
    (_success_counter self) (_min_success_count self) (_timeout self)
    (_handle_exceptions self) (_excluded_exceptions self)
    (_fallback_function self) (name self) v.

(** *** Properties *)

(** [now] is the value [monotonic()] returns when the property is read. *)
Definition time_left_in_open_state (now : Q) (self : CircuitBreaker) : Q :=
  match _start_time_open_state self with
  | Some start =>
      if negb (truthy_float (Some start)) then 0%Q
      else
        let delta := (now - start)%Q in
        if Qgtb delta (_timeout self) then 0%Q
        else (_timeout self - delta)%Q
  | None => 0%Q
  end.

Definition is_opened (self : CircuitBreaker) : bool :=
  BreakerState_eqb (_state self) OPEN.

Definition is_closed (self : CircuitBreaker) : bool :=
  BreakerState_eqb (_state self) CLOSED.

Definition is_half_opened (self : CircuitBreaker) : bool :=
  BreakerState_eqb (_state self) HALF_OPEN.

(** *** Counters and limits *)

Definition _reset_failure_counter (self : CircuitBreaker) :=
  set_failure_counter 0 self.

Definition _reset_success_counter (self : CircuitBreaker) :=
  set_success_counter 0 self.

Definition _increase_failure_counter (self : CircuitBreaker) :=
  set_failure_counter (_failure_counter self + 1) self.

Definition _increase_success_counter (self : CircuitBreaker) :=
  set_success_counter (_success_counter self + 1) self.

Definition _failure_limit_is_reached (self : CircuitBreaker) : bool :=
  _failure_counter self >=? _max_failure_count self.

Definition _success_limit_is_reached (self : CircuitBreaker) : bool :=
  _success_counter self >=? _min_success_count self.

(** *** Timer *)

Definition _activate_start_time_open_state (now : Q) (self : CircuitBreaker) :=
  set_start_time_open_state (Some now) self.

Definition _is_func_exec_after_open_state_finished
    (now : Q) (self : CircuitBreaker) : bool :=
  match _start_time_open_state self with
  | Some start =>
      if negb (truthy_float (Some start)) then true
      else
        let delta := (now - start)%Q in
        if Qgtb delta (_timeout self) then true else false
  | None => true
  end.

(** *** State changes *)

(** The clock is read only on the way into [OPEN]; [now] is that reading. *)
Definition _switch_state (now : Q) (new_state : BreakerState)
    (self : CircuitBreaker) : CircuitBreaker :=
  let self := set_state new_state self in
  if BreakerState_eqb (_state self) OPEN then
    _activate_start_time_open_state now self
  else if BreakerState_eqb (_state self) CLOSED then
    _reset_failure_counter self
  else if BreakerState_eqb (_state self) HALF_OPEN then
    _reset_success_counter self
  else self.

Definition _error_pipeline (now : Q) (self : CircuitBreaker) : CircuitBreaker :=
  if is_closed self then
    let self := _increase_failure_counter self in
    if _failure_limit_is_reached self then _switch_state now OPEN self
    else self
  else if is_half_opened self then
    let self := _reset_success_counter self in
    _switch_state now OPEN self
  else self.

Definition _success_pipeline (now : Q) (self : CircuitBreaker) : CircuitBreaker :=
  if is_half_opened self then
    let self := _increase_success_counter self in
    if _success_limit_is_reached self then _switch_state now CLOSED self
    else self
  else self.

(** *** Outcome classification *)

Definition _is_need_handle_error (self : CircuitBreaker) (exc_type : PyClass)
    : bool :=
  match _excluded_exceptions self with
  | Some excluded =>
      if truthy_tuple (Some excluded) then
        negb (issubclass exc_type excluded)
        && issubclass exc_type (_handle_exceptions self)
      else issubclass exc_type (_handle_exceptions self)
  | None => issubclass exc_type (_handle_exceptions self)
  end.

(** *** Context manager *)

Definition __enter__ (self : CircuitBreaker) : CircuitBreaker := self.

(** [exc_type] is [None] when the block finished normally.  The returned
    flag says whether the exception is suppressed. *)
Definition __exit__ (exc_type : option PyClass) (now : Q)
    (self : CircuitBreaker) : bool * CircuitBreaker :=
  (false,
   match exc_type with
   | Some ty =>
       if _is_need_handle_error self ty then _error_pipeline now self
       else self
   | None => _success_pipeline now self
   end).

(** The result of one guarded call: what the caller gets, the breaker
    afterwards, and the callables that ran. *)
Record Call := mkCall {
  result : Outcome;
  breaker : CircuitBreaker;
  trace : list Event
}.

(** The body [return func(...)] run under [with self].  A suppressed exception
    would let the body fall through to the implicit [None]. *)
Definition _execute (func : PyFunc) (args : Args) (now : Q)
    (self : CircuitBreaker) : Call :=
  let self := __enter__ self in
  let r := call func args in
  let exc_type :=
    match r with Raised e => Some (type_of e) | _ => None end in
  let '(suppress, self) := __exit__ exc_type now self in
  mkCall
    (match r with
     | Raised _ => if suppress then ReturnedNone else r
     | _ => r
     end)
    self [CalledFunc args].

(** *** The decorator *)

Definition decorator (func : PyFunc) (self : CircuitBreaker) : CircuitBreaker :=
  set_name
    (if negb (truthy_str (name self)) then Some (__qualname__ func)
     else name self)
    self.

(** The closure [wrapper] of [decorator]: [this] is the reference of the
    breaker object [self], [t_call] is the clock when the call arrives and
    [t_exit] the clock when the protected operation has finished. *)
Definition wrapper (this : ref) (func : PyFunc) (args : Args)
    (t_call t_exit : Q) (self : CircuitBreaker) : Call :=
  if is_opened self then
    if _is_func_exec_after_open_state_finished t_call self then
      _execute func args t_exit (_switch_state t_call HALF_OPEN self)
    else
      match _fallback_function self with
      | Some fallback => mkCall (call fallback args) self [CalledFallback args]
      | None => mkCall (Raised (CircuitOpenError this)) self []
      end
  else _execute func args t_exit self.

(** [circuit_breaker(...)(func)]: a fresh breaker attached to [func]. *)
Definition circuit_breaker
    (failure_count success_count : option Z) (timeout : option timedelta)
    (handle_exceptions excluded_exceptions : option (list PyClass))
    (fallback_function : option PyFunc) (func : PyFunc) : CircuitBreaker :=
  decorator func
    (__init__ failure_count success_count timeout handle_exceptions
       excluded_exceptions fallback_function).

End Breaker.

Arguments Outcome : clear implicits.
Arguments PyFunc : clear implicits.
Arguments Event : clear implicits.
Arguments CircuitBreaker : clear implicits.
Arguments Call : clear implicits.

(** ** Sequences of guarded calls *)

Section Runs.

Context {Args Value : Type}.

(** One invocation of the guarded callable: the protected operation, its
    arguments and the two clock readings of the call. *)
Record Attempt := mkAttempt {
  a_func : PyFunc Args Value;
  a_args : Args;
  a_t_call : Q;
  a_t_exit : Q
}.

Definition attempt (this : ref) (a : Attempt)
    (self : CircuitBreaker Args Value) : Call Args Value :=
  wrapper this (a_func a) (a_args a) (a_t_call a) (a_t_exit a) self.

(** Calls made one after the other on the same breaker object. *)
Fixpoint run (this : ref) (l : list Attempt)
    (self : CircuitBreaker Args Value) : CircuitBreaker Args Value :=
  match l with
  | [] => self
  | a :: l => run this l (breaker (attempt this a self))
  end.

(** The breakers a program can hold: freshly attached ones and those left
    behind by guarded calls. *)
Inductive reachable (this : ref) : CircuitBreaker Args Value -> Prop :=
| reach_new fc sc timeout he ee fb func :
    reachable this (circuit_breaker fc sc timeout he ee fb func)
| reach_call self a :
    reachable this self -> reachable this (breaker (attempt this a self)).

(** The attributes fixed at construction. *)
Definition config (self : CircuitBreaker Args Value) :=
  (_max_failure_count self, _min_success_count self, _timeout self,
   _handle_exceptions self, _excluded_exceptions self,
   _fallback_function self).

(** The outcome of the protected operation is an error the breaker counts. *)
Definition counted_failure (self : CircuitBreaker Args Value)
    (o : Outcome Value) : bool :=
  match o with
  | Raised e => _is_need_handle_error self (type_of e)
  | _ => false
  end.

(** The opening stamp, when there is one, is a nonzero clock reading. *)
Definition stamped (self : CircuitBreaker Args Value) : Prop :=
  forall t, _start_time_open_state self = Some t -> ~ (t == 0)%Q.

(** *** The object store *)

(** A guarded call on the breaker stored at [this]: the object is updated
    in place, every holder of the reference sees the update. *)
Definition guarded_call (this : ref) (func : PyFunc Args Value) (args : Args)
    (t_call t_exit : Q) (heap : gmap ref (CircuitBreaker Args Value))
    : option (Outcome Value * gmap ref (CircuitBreaker Args Value)) :=
  match heap !! this with
  | Some self =>
      let c := wrapper this func args t_call t_exit self in
      Some (result c, <[this := breaker c]> heap)
  | None => None
  end.

(** [CircuitOpenError.__str__]: the message is a fixed text around the
    number [left], read from the referenced breaker when the message is
    built; [now] is the clock at that moment.  The number is returned. *)
Definition CircuitOpenError__str__ (now : Q)
    (heap : gmap ref (CircuitBreaker Args Value)) (e : PyExc) : option Q :=
  match e with
  | CircuitOpenError b =>
      match heap !! b with
      | Some self => Some (time_left_in_open_state now self)
      | None => None
      end
  | AppError _ _ => None
  end.

(** The label of the breaker an error refers to. *)
Definition breaker_name (heap : gmap ref (CircuitBreaker Args Value))
    (e : PyExc) : option string :=
  match e with
  | CircuitOpenError b =>
      match heap !! b with Some self => name self | None => None end
  | AppError _ _ => None
  end.

End Runs.

Arguments Attempt : clear implicits.

(** ** A concrete service used in the examples *)

Module Scenario.

Definition ValueError_cls : PyClass :=
  mkClass "ValueError"
    ["ValueError"; "Exception"; "BaseException"; "object"]%string.
Definition ValidationError_cls : PyClass :=
  mkClass "ValidationError"
    ["ValidationError"; "ValueError"; "Exception"; "BaseException";
     "object"]%string.
Definition KeyboardInterrupt_cls : PyClass :=
  mkClass "KeyboardInterrupt"
    ["KeyboardInterrupt"; "BaseException"; "object"]%string.

Definition boom : PyExc := AppError ValueError_cls "boom".
Definition invalid : PyExc := AppError ValidationError_cls "invalid".

Definition failing : PyFunc Z Z := mkFunc "fetch" (fun _ => Raised boom).
Definition rejecting : PyFunc Z Z := mkFunc "fetch" (fun _ => Raised invalid).
Definition working : PyFunc Z Z := mkFunc "fetch" (fun x => Returned (x + 1)).
Definition cached : PyFunc Z Z := mkFunc "cached" (fun x => Returned (- x)).

(** [circuit_breaker()(fetch)]: all defaults. *)
Definition fresh : CircuitBreaker Z Z :=
  circuit_breaker None None None None None None failing.

(** [circuit_breaker(fallback_function=cached)(fetch)]. *)
Definition fresh_fb : CircuitBreaker Z Z :=
  circuit_breaker None None None None None (Some cached) failing.

(** [circuit_breaker(excluded_exceptions=(ValidationError,))(fetch)]. *)
Definition fresh_excl : CircuitBreaker Z Z :=
  circuit_breaker None None None None (Some [ValidationError_cls]) None
    failing.

Definition fail_at (t : Q) : Attempt Z Z := mkAttempt failing 5 t (t + 1).
Definition ok_at (t : Q) : Attempt Z Z := mkAttempt working 5 t (t + 1).

(** Two failures: open, stamped at clock 100. *)
Definition opened : CircuitBreaker Z Z :=
  run 0%nat [fail_at 98; fail_at 99] fresh.

Definition opened_fb : CircuitBreaker Z Z :=
  run 0%nat [fail_at 98; fail_at 99] fresh_fb.

(** After the cooldown a trial call and one more success close it again. *)
Definition recovered : CircuitBreaker Z Z :=
  run 0%nat [ok_at 131; ok_at 133] opened.


(** A half-open breaker: the trial call succeeded once. *)
Definition half_opened : CircuitBreaker Z Z :=
  run 0%nat [ok_at 131] opened.

End Scenario.

(** ** Clocks, tallies and ranges for runs *)

Section Clocks.

Context {Args Value : Type}.

(** The clock never goes back: a call arrives no earlier than [t], the
    end of the previous one, and ends no earlier than it arrived. *)
Fixpoint clock_ordered (t : Q) (l : list (Attempt Args Value)) : Prop :=
  match l with
  | [] => True
  | a :: l =>
      (t <= a_t_call a)%Q /\ (a_t_call a <= a_t_exit a)%Q /\
      clock_ordered (a_t_exit a) l
  end.

(** The clock when the last call of the run has ended. *)
Fixpoint last_clock (t : Q) (l : list (Attempt Args Value)) : Q :=
  match l with
  | [] => t
  | a :: l => last_clock (a_t_exit a) l
  end.

(** At clock [t] the timeout has run out since the opening stamp, if a
    truthy stamp is there. *)
Definition cooled (t : Q) (self : CircuitBreaker Args Value) : Prop :=
  forall s, _start_time_open_state self = Some s ->
            truthy_float (Some s) = true ->
            (_timeout self < t - s)%Q.

(** How many calls of the run end in an error the breaker counts. *)
Fixpoint tally_counted (self : CircuitBreaker Args Value)
    (l : list (Attempt Args Value)) : Z :=
  match l with
  | [] => 0
  | a :: l =>
      (if counted_failure self (call (a_func a) (a_args a)) then 1 else 0)
      + tally_counted self l
  end.

(** The protected operation came back without raising. *)
Definition returned (o : Outcome Value) : bool :=
  match o with Raised _ => false | _ => true end.

(** Counters within their thresholds, state by state. *)
Definition in_range (self : CircuitBreaker Args Value) : Prop :=
  0 <= _failure_counter self <= _max_failure_count self /\
  0 <= _success_counter self <= _min_success_count self /\
  (_state self = CLOSED -> _failure_counter self < _max_failure_count self) /\
  (_state self = HALF_OPEN ->
   _success_counter self < _min_success_count self) /\
  (_state self = OPEN -> exists t, _start_time_open_state self = Some t).

End Clocks.

(** ** More example breakers *)

Module Cases.

Import Scenario.

(** The calls of a full cycle of the default breaker, in clock order. *)
Definition cycle : list (Attempt Z Z) :=
  [fail_at 98; fail_at 99; ok_at 131; ok_at 133].

(** [circuit_breaker(timeout=timedelta(seconds=-5))(fetch)], opened by two
    failures. *)
Definition impatient : CircuitBreaker Z Z :=
  run 0%nat [fail_at 98; fail_at 99]
    (circuit_breaker None None (Some (timedelta_seconds (-5))) None None None
       failing).

(** [circuit_breaker(failure_count=1, success_count=1)(fetch)]. *)
Definition hasty : CircuitBreaker Z Z :=
  circuit_breaker (Some 1) (Some 1) None None None None failing.

(** A breaker object not yet attached to any function. *)
Definition detached : CircuitBreaker Z Z :=
  __init__ None None None None None None.

(** The breaker that excludes [ValidationError], after a full cycle and two
    more failures: open again, stamped at clock 142, with the success
    counter of the earlier recovery still at 2. *)
Definition reopened_excl : CircuitBreaker Z Z :=
  run 0%nat (cycle ++ [fail_at 140; fail_at 141]) fresh_excl.

End Cases.

(** * Properties *)

(** ** Comparisons and class tests *)

Lemma BreakerState_eqb_eq (a b : BreakerState) :
  BreakerState_eqb a b = true <-> a = b.
Proof. destruct a, b; simpl; split; congruence. Qed.

Lemma Qgtb_lt (a b : Q) : Qgtb a b = true <-> (b < a)%Q.
Proof.
  unfold Qgtb. rewrite negb_true_iff, <- not_true_iff_false, Qle_bool_iff.
  split; [apply Qnot_le_lt | apply Qlt_not_le].
Qed.

Lemma Qgtb_le (a b : Q) : Qgtb a b = false <-> (a <= b)%Q.
Proof. unfold Qgtb. rewrite negb_false_iff. apply Qle_bool_iff. Qed.

Lemma truthy_float_Some (t : Q) :
  truthy_float (Some t) = true <-> ~ (t == 0)%Q.
Proof.
  simpl. rewrite negb_true_iff, <- not_true_iff_false, Qeq_bool_iff.
  reflexivity.
Qed.

Lemma issubclass_exists (c : PyClass) (ds : list PyClass) :
  issubclass c ds = true <->
  exists d, In d ds /\ issubclass_of c d = true.
Proof. unfold issubclass. apply existsb_exists. Qed.

Section Properties.

Context {Args Value : Type}.

Implicit Types self cb : CircuitBreaker Args Value.
Implicit Types a : Attempt Args Value.
Implicit Types func : PyFunc Args Value.

Ltac open_breaker cb :=
  destruct cb as [st fc mx sc mn tmo he ee fb nm start]; simpl in *; subst.

(** ** The two pipelines, case by case *)

Lemma error_pipeline_closed now cb :
  _state cb = CLOSED ->
  _error_pipeline now cb =
    if _failure_counter cb + 1 >=? _max_failure_count cb
    then set_start_time_open_state (Some now)
           (set_state OPEN (set_failure_counter (_failure_counter cb + 1) cb))
    else set_failure_counter (_failure_counter cb + 1) cb.
Proof.
  intros H. open_breaker cb. unfold _error_pipeline, is_closed; simpl.
  unfold _failure_limit_is_reached; simpl.
  destruct (fc + 1 >=? mx); reflexivity.
Qed.

Lemma error_pipeline_half_open now cb :
  _state cb = HALF_OPEN ->
  _error_pipeline now cb =
    set_start_time_open_state (Some now)
      (set_state OPEN (set_success_counter 0 cb)).
Proof. intros H. open_breaker cb. reflexivity. Qed.

Lemma error_pipeline_open now cb :
  _state cb = OPEN -> _error_pipeline now cb = cb.
Proof. intros H. open_breaker cb. reflexivity. Qed.

Lemma success_pipeline_half_open now cb :
  _state cb = HALF_OPEN ->
  _success_pipeline now cb =
    if _success_counter cb + 1 >=? _min_success_count cb
    then set_failure_counter 0
           (set_state CLOSED (set_success_counter (_success_counter cb + 1) cb))
    else set_success_counter (_success_counter cb + 1) cb.
Proof.
  intros H. open_breaker cb. unfold _success_pipeline, is_half_opened; simpl.
  unfold _success_limit_is_reached; simpl.
  destruct (sc + 1 >=? mn); reflexivity.
Qed.

Lemma success_pipeline_other now cb :
  _state cb <> HALF_OPEN -> _success_pipeline now cb = cb.
Proof.
  intros H. unfold _success_pipeline, is_half_opened.
  destruct (BreakerState_eqb (_state cb) HALF_OPEN) eqn:E; [|reflexivity].
  apply BreakerState_eqb_eq in E. contradiction.
Qed.

(** ** What a guarded call never touches *)

Lemma config_error_pipeline now cb : config (_error_pipeline now cb) = config cb.
Proof.
  destruct (_state cb) eqn:E.
  - rewrite error_pipeline_closed by assumption.
    destruct (_ >=? _); reflexivity.
  - rewrite error_pipeline_open by assumption. reflexivity.
  - rewrite error_pipeline_half_open by assumption. reflexivity.
Qed.

Lemma config_success_pipeline now cb :
  config (_success_pipeline now cb) = config cb.
Proof.
  destruct (_state cb) eqn:E;
    try (rewrite success_pipeline_other by congruence; reflexivity).
  rewrite success_pipeline_half_open by assumption.
  destruct (_ >=? _); reflexivity.
Qed.

Lemma config_exit exc_type now cb :
  config (snd (__exit__ exc_type now cb)) = config cb.
Proof.
  unfold __exit__; simpl. destruct exc_type as [ty|].
  - destruct (_is_need_handle_error cb ty);
      [apply config_error_pipeline | reflexivity].
  - apply config_success_pipeline.
Qed.

Lemma breaker_execute func args now cb :
  breaker (_execute func args now cb) =
  snd (__exit__
         (match call func args with Raised e => Some (type_of e) | _ => None end)
         now cb).
Proof. reflexivity. Qed.

Lemma config_wrapper this func args t_call t_exit cb :
  config (breaker (wrapper this func args t_call t_exit cb)) = config cb.
Proof.
  unfold wrapper.
  destruct (is_opened cb).
  - destruct (_is_func_exec_after_open_state_finished t_call cb).
    + rewrite breaker_execute, config_exit. reflexivity.
    + destruct (_fallback_function cb); reflexivity.
  - rewrite breaker_execute. apply config_exit.
Qed.

Lemma need_handle_config cb cb' ty :
  config cb = config cb' ->
  _is_need_handle_error cb ty = _is_need_handle_error cb' ty.
Proof.
  unfold config, _is_need_handle_error. intros H.
  injection H as _ _ _ Hh He _. rewrite Hh, He. reflexivity.
Qed.

Lemma counted_failure_config cb cb' o :
  config cb = config cb' -> counted_failure cb o = counted_failure cb' o.
Proof.
  intros H. destruct o; simpl; try reflexivity. apply need_handle_config, H.
Qed.

(** ** Calls on a breaker that is not open *)

Lemma wrapper_not_open this func args t_call t_exit cb :
  _state cb <> OPEN ->
  wrapper this func args t_call t_exit cb = _execute func args t_exit cb.
Proof.
  intros H. unfold wrapper, is_opened.
  destruct (BreakerState_eqb (_state cb) OPEN) eqn:E; [|reflexivity].
  apply BreakerState_eqb_eq in E. contradiction.
Qed.

Lemma attempt_counted_closed this a cb :
  _state cb = CLOSED ->
  counted_failure cb (call (a_func a) (a_args a)) = true ->
  breaker (attempt this a cb) = _error_pipeline (a_t_exit a) cb.
Proof.
  intros Hst Hc. unfold attempt.
  rewrite wrapper_not_open by congruence. rewrite breaker_execute.
  destruct (call (a_func a) (a_args a)) as [v| |e]; simpl in Hc;
    try discriminate.
  unfold __exit__; simpl. rewrite Hc. reflexivity.
Qed.

(** Failures below the threshold keep the breaker closed and are counted
    one by one. *)
Lemma run_closed_below this (l : list (Attempt Args Value)) :
  forall cb0 cb,
    config cb0 = config cb ->
    _state cb = CLOSED ->
    Forall (fun a => counted_failure cb0 (call (a_func a) (a_args a)) = true) l ->
    _failure_counter cb + Z.of_nat (length l) < _max_failure_count cb ->
    let cb' := run this l cb in
    _state cb' = CLOSED /\
    _failure_counter cb' = _failure_counter cb + Z.of_nat (length l) /\
    config cb' = config cb /\
    _success_counter cb' = _success_counter cb /\
    _start_time_open_state cb' = _start_time_open_state cb.
Proof.
  induction l as [|a l IH]; intros cb0 cb Hcfg Hst Hall Hlt.
  - simpl. repeat split; try assumption; try reflexivity. lia.
  - inversion Hall as [|? ? Ha Hl]; subst. simpl length in *.
    cbn [run]. cbv zeta.
    assert (Hstep : breaker (attempt this a cb) = _error_pipeline (a_t_exit a) cb).
    { apply attempt_counted_closed; [assumption|].
      rewrite <- (counted_failure_config cb0 cb); assumption. }
    rewrite Hstep, error_pipeline_closed by assumption.
    destruct (Z.geb_spec (_failure_counter cb + 1) (_max_failure_count cb)) as [Hge|Hlt'];
      [lia|].
    specialize (IH cb0 (set_failure_counter (_failure_counter cb + 1) cb)).
    cbv zeta in IH. simpl in IH.
    destruct IH as (H1 & H2 & H3 & H4 & H5); try assumption; try lia.
    repeat split; try assumption. lia.
Qed.

Lemma run_app this (l1 l2 : list (Attempt Args Value)) cb :
  run this (l1 ++ l2) cb = run this l2 (run this l1 cb).
Proof.
  revert cb. induction l1 as [|a l1 IH]; intros cb; simpl; [reflexivity|].
  apply IH.
Qed.

(** ** Closed: failures are counted up to the threshold *)

(** C1.  In state Closed every counted failure adds one to the failure
    counter, and the breaker opens exactly when the incremented counter
    has reached the threshold.  A run of threshold-many counted failures
    from a zero counter leaves the breaker Closed after each of the first
    threshold - 1 of them and Open after the last, stamped with the clock
    reading of that last failure. *)
Theorem closed_failures_open_at_threshold this cb :
  _state cb = CLOSED ->
  (forall now ty,
     _is_need_handle_error cb ty = true ->
     let cb' := snd (__exit__ (Some ty) now cb) in
     _failure_counter cb' = _failure_counter cb + 1 /\
     (_state cb' = OPEN <->
      _failure_counter cb + 1 >= _max_failure_count cb) /\
     (_state cb' = CLOSED <->
      _failure_counter cb + 1 < _max_failure_count cb) /\
     (_state cb' = OPEN -> _start_time_open_state cb' = Some now)) /\
  (_failure_counter cb = 0 ->
   1 <= _max_failure_count cb ->
   forall (l : list (Attempt Args Value)) a,
     Z.of_nat (length (l ++ [a])) = _max_failure_count cb ->
     Forall (fun a => counted_failure cb (call (a_func a) (a_args a)) = true)
       (l ++ [a]) ->
     (forall k, (k <= length l)%nat ->
        _state (run this (firstn k (l ++ [a])) cb) = CLOSED /\
        _failure_counter (run this (firstn k (l ++ [a])) cb) = Z.of_nat k) /\
     _state (run this (l ++ [a]) cb) = OPEN /\
     _failure_counter (run this (l ++ [a]) cb) = _max_failure_count cb /\
     _start_time_open_state (run this (l ++ [a]) cb) = Some (a_t_exit a)).
Proof.
  intros Hst. split.
  - intros now ty Hneed. unfold __exit__; simpl. rewrite Hneed.
    rewrite error_pipeline_closed by assumption.
    destruct (Z.geb_spec (_failure_counter cb + 1) (_max_failure_count cb));
      simpl; repeat split; intros; try congruence; try lia.
  - intros Hzero Hpos l a Hlen Hall.
    rewrite length_app in Hlen. simpl in Hlen.
    apply Forall_app in Hall. destruct Hall as [Hl Ha].
    inversion Ha as [|? ? Hlast _]; subst.
    assert (Hpre : forall l', Forall (fun a =>
               counted_failure cb (call (a_func a) (a_args a)) = true) l' ->
             (length l' <= length l)%nat ->
             _state (run this l' cb) = CLOSED /\
             _failure_counter (run this l' cb) = Z.of_nat (length l') /\
             config (run this l' cb) = config cb).
    { intros l' Hl' Hle.
      destruct (run_closed_below this l' cb cb) as (H1 & H2 & H3 & _);
        try assumption; try reflexivity; try lia.
      repeat split; try assumption. lia. }
    split; [|].
    + intros k Hk.
      rewrite firstn_app.
      replace (k - length l)%nat with 0%nat by lia.
      rewrite firstn_O, app_nil_r.
      destruct (Hpre (firstn k l)) as (H1 & H2 & _).
      * apply Forall_take. assumption.
      * rewrite length_firstn. lia.
      * rewrite length_firstn in H2.
        replace (Init.Nat.min k (length l)) with k in H2 by lia.
        split; assumption.
    + destruct (Hpre l Hl) as (H1 & H2 & H3); [lia|].
      rewrite run_app. cbn [run].
      rewrite attempt_counted_closed; try assumption.
      2:{ rewrite (counted_failure_config _ cb); assumption. }
      rewrite error_pipeline_closed by assumption.
      assert (Hmx : _max_failure_count (run this l cb) = _max_failure_count cb).
      { unfold config in H3. congruence. }
      rewrite Hmx, H2.
      destruct (Z.geb_spec (Z.of_nat (length l) + 1) (_max_failure_count cb));
        [|lia].
      simpl. repeat split; lia.
Qed.

(** ** Open: the cooldown gate *)

Lemma result_execute func args now cb :
  result (_execute func args now cb) = call func args.
Proof.
  unfold _execute, __exit__; simpl. destruct (call func args); reflexivity.
Qed.


Lemma cooldown_finished_iff now cb :
  stamped cb ->
  (_is_func_exec_after_open_state_finished now cb = true <->
   _start_time_open_state cb = None \/
   exists start, _start_time_open_state cb = Some start /\
                 (_timeout cb < now - start)%Q).
Proof.
  unfold stamped, _is_func_exec_after_open_state_finished. intros Hst.
  destruct (_start_time_open_state cb) as [start|]; [|tauto].
  assert (Ht : truthy_float (Some start) = true).
  { apply truthy_float_Some. apply Hst. reflexivity. }
  rewrite Ht. simpl negb. cbv iota zeta.
  destruct (Qgtb (now - start) (_timeout cb)) eqn:E.
  - apply Qgtb_lt in E. split; [|reflexivity]. intros _. right. eauto.
  - apply Qgtb_le in E. split; [discriminate|].
    intros [H|(s & Hs & Hlt)]; [discriminate|].
    injection Hs as <-. exfalso. eapply Qlt_not_le; eassumption.
Qed.

Lemma wrapper_open_rejected this func args t_call t_exit cb :
  _state cb = OPEN ->
  _is_func_exec_after_open_state_finished t_call cb = false ->
  wrapper this func args t_call t_exit cb =
    match _fallback_function cb with
    | Some fallback => mkCall (call fallback args) cb [CalledFallback args]
    | None => mkCall (Raised (CircuitOpenError this)) cb []
    end.
Proof.
  intros Hst Hno. unfold wrapper, is_opened. rewrite Hst, Hno. reflexivity.
Qed.

Lemma wrapper_open_trial this func args t_call t_exit cb :
  _state cb = OPEN ->
  _is_func_exec_after_open_state_finished t_call cb = true ->
  wrapper this func args t_call t_exit cb =
    _execute func args t_exit (_switch_state t_call HALF_OPEN cb).
Proof.
  intros Hst Hyes. unfold wrapper, is_opened. rewrite Hst, Hyes. reflexivity.
Qed.


(** ** HalfOpen: probing *)

(** C3.  In state HalfOpen every success adds one to the success counter
    and the breaker closes exactly when the incremented counter has
    reached the success threshold, the failure counter being reset to 0 on
    closing; one counted failure sends the breaker straight back to Open
    with the success counter at 0 and the opening stamp set to the clock
    reading of that failure. *)
Theorem half_open_success_and_failure cb :
  _state cb = HALF_OPEN ->
  (forall now,
     let cb' := snd (__exit__ None now cb) in
     _success_counter cb' = _success_counter cb + 1 /\
     (_state cb' = CLOSED <->
      _success_counter cb + 1 >= _min_success_count cb) /\
     (_state cb' = HALF_OPEN <->
      _success_counter cb + 1 < _min_success_count cb) /\
     (_state cb' = CLOSED -> _failure_counter cb' = 0) /\
     (_state cb' = HALF_OPEN -> _failure_counter cb' = _failure_counter cb)) /\
  (forall now ty,
     _is_need_handle_error cb ty = true ->
     let cb' := snd (__exit__ (Some ty) now cb) in
     _state cb' = OPEN /\
     _success_counter cb' = 0 /\
     _start_time_open_state cb' = Some now) /\
  (forall this func args t_call t_exit,
     breaker (wrapper this func args t_call t_exit cb) =
     snd (__exit__
            (match call func args with
             | Raised e => Some (type_of e)
             | _ => None
             end) t_exit cb)).
Proof.
  intros Hst. split; [|split].
  - intros now. unfold __exit__; simpl.
    rewrite success_pipeline_half_open by assumption.
    destruct (Z.geb_spec (_success_counter cb + 1) (_min_success_count cb));
      simpl; repeat split; intros; try congruence; try lia.
  - intros now ty Hneed. unfold __exit__; simpl. rewrite Hneed.
    rewrite error_pipeline_half_open by assumption. repeat split.
  - intros this func args t_call t_exit.
    rewrite wrapper_not_open by congruence. apply breaker_execute.
Qed.

(** ** The success counter across transitions *)

Lemma reachable_run this (l : list (Attempt Args Value)) cb :
  reachable this cb -> reachable this (run this l cb).
Proof.
  revert cb. induction l as [|a l IH]; intros cb H; simpl; [assumption|].
  apply IH. constructor. assumption.
Qed.


(** ** Open: rejected calls *)


(** ** Outcome classification *)

(** C6.  A raised error counts as a failure exactly when, with an exclude
    tuple configured, its class is a subclass of no excluded class and of
    some handled class, and, with none configured, its class is a subclass
    of some handled class.  A normal return is a success. *)
Theorem classifier_counts_handled_not_excluded cb :
  (forall ty,
     _is_need_handle_error cb ty = true <->
     match _excluded_exceptions cb with
     | Some excluded =>
         ~ (exists d, In d excluded /\ issubclass_of ty d = true) /\
         exists d, In d (_handle_exceptions cb) /\ issubclass_of ty d = true
     | None =>
         exists d, In d (_handle_exceptions cb) /\ issubclass_of ty d = true
     end) /\
  (forall now ty,
     snd (__exit__ (Some ty) now cb) =
     if _is_need_handle_error cb ty then _error_pipeline now cb else cb) /\
  (forall now, snd (__exit__ None now cb) = _success_pipeline now cb) /\
  (forall func args now,
     match call func args with
     | Raised e =>
         breaker (_execute func args now cb) =
         if _is_need_handle_error cb (type_of e) then _error_pipeline now cb
         else cb
     | _ =>
         breaker (_execute func args now cb) = _success_pipeline now cb /\
         result (_execute func args now cb) = call func args
     end).
Proof.
  split; [|split; [|split]]; try reflexivity.
  - intros ty. unfold _is_need_handle_error.
    destruct (_excluded_exceptions cb) as [[|x excluded]|]; simpl truthy_tuple;
      cbv iota.
    + rewrite issubclass_exists. split.
      * intros H. split; [|assumption]. intros (d & [] & _).
      * tauto.
    + rewrite andb_true_iff, negb_true_iff, <- not_true_iff_false.
      rewrite !issubclass_exists. reflexivity.
    + apply issubclass_exists.
  - intros func args now. rewrite breaker_execute, result_execute.
    destruct (call func args); simpl; auto.
Qed.

(** ** Ignored errors *)

(** C7, as the code has it.  When the protected operation raises an error
    that is not counted, observing it changes nothing in the breaker and
    does not suppress it: the caller gets the same exception.  On a
    breaker that is not open the whole guarded call leaves the breaker as
    it was; on an open breaker past its cooldown the call leaves the
    breaker as the switch to HalfOpen, made before the operation ran, set
    it: HalfOpen with a success counter of 0. *)
Theorem ignored_error_propagates_unchanged
    this func args t_call t_exit cb e :
  call func args = Raised e ->
  _is_need_handle_error cb (type_of e) = false ->
  __exit__ (Some (type_of e)) t_exit cb = (false, cb) /\
  _execute func args t_exit cb = mkCall (Raised e) cb [CalledFunc args] /\
  (_state cb <> OPEN ->
   wrapper this func args t_call t_exit cb =
   mkCall (Raised e) cb [CalledFunc args]) /\
  (_state cb = OPEN ->
   _is_func_exec_after_open_state_finished t_call cb = true ->
   wrapper this func args t_call t_exit cb =
   mkCall (Raised e) (_switch_state t_call HALF_OPEN cb) [CalledFunc args] /\
   _state (breaker (wrapper this func args t_call t_exit cb)) = HALF_OPEN /\
   _success_counter (breaker (wrapper this func args t_call t_exit cb)) = 0 /\
   _failure_counter (breaker (wrapper this func args t_call t_exit cb))
     = _failure_counter cb /\
   _start_time_open_state (breaker (wrapper this func args t_call t_exit cb))
     = _start_time_open_state cb).
Proof.
  intros Hcall Hign.
  assert (Hexit : forall cb', config cb' = config cb ->
            _execute func args t_exit cb' =
            mkCall (Raised e) cb' [CalledFunc args]).
  { intros cb' Hcfg. unfold _execute, __exit__, __enter__. rewrite Hcall.
    rewrite (need_handle_config cb' cb) by assumption.
    rewrite Hign. reflexivity. }
  split; [|split; [|split]].
  - unfold __exit__. rewrite Hign. reflexivity.
  - apply Hexit. reflexivity.
  - intros Hst. rewrite wrapper_not_open by assumption.
    apply Hexit. reflexivity.
  - intros Hst Hyes. rewrite wrapper_open_trial by assumption.
    rewrite Hexit by reflexivity. repeat split.
Qed.

(** ** The error raised on rejection *)

Lemma time_left_nonincreasing t1 t2 cb :
  (t1 <= t2)%Q ->
  (time_left_in_open_state t2 cb <= time_left_in_open_state t1 cb)%Q.
Proof.
  intros Hle. unfold time_left_in_open_state.
  destruct (_start_time_open_state cb) as [start|]; [|apply Qle_refl].
  destruct (negb (truthy_float (Some start))); [apply Qle_refl|].
  cbv zeta.
  destruct (Qgtb (t2 - start) (_timeout cb)) eqn:E2;
    destruct (Qgtb (t1 - start) (_timeout cb)) eqn:E1;
    try apply Qgtb_lt in E2; try apply Qgtb_le in E2;
    try apply Qgtb_lt in E1; try apply Qgtb_le in E1; lra.
Qed.

Lemma time_left_zero_after_timeout now cb start :
  _start_time_open_state cb = Some start ->
  (_timeout cb < now - start)%Q ->
  time_left_in_open_state now cb = 0%Q.
Proof.
  intros Hs Hlt. unfold time_left_in_open_state. rewrite Hs.
  destruct (negb (truthy_float (Some start))); [reflexivity|].
  cbv zeta. apply Qgtb_lt in Hlt. rewrite Hlt. reflexivity.
Qed.

(** C8, as the code has it.  The error raised on a rejected call holds a
    reference to the breaker, through which the breaker's label is read,
    and no number of its own: its message is built from whatever the
    referenced breaker and the clock are when the message is asked for.
    While the breaker is untouched a later message reports no more time
    left than one built at rejection, and zero once the cooldown is over. *)
Theorem open_error_refers_to_breaker
    this func args t_call t_exit
    (heap : gmap ref (CircuitBreaker Args Value)) cb :
  heap !! this = Some cb ->
  _state cb = OPEN ->
  _is_func_exec_after_open_state_finished t_call cb = false ->
  _fallback_function cb = None ->
  guarded_call this func args t_call t_exit heap =
    Some (Raised (CircuitOpenError this), heap) /\
  breaker_name heap (CircuitOpenError this) = name cb /\
  (forall now (heap' : gmap ref (CircuitBreaker Args Value)) cb',
     heap' !! this = Some cb' ->
     CircuitOpenError__str__ now heap' (CircuitOpenError this) =
     Some (time_left_in_open_state now cb')) /\
  (forall now,
     (t_call <= now)%Q ->
     (time_left_in_open_state now cb <= time_left_in_open_state t_call cb)%Q) /\
  (forall now start,
     _start_time_open_state cb = Some start ->
     (_timeout cb < now - start)%Q ->
     CircuitOpenError__str__ now heap (CircuitOpenError this) = Some 0%Q).
Proof.
  intros Hlook Hst Hno Hfb. split; [|split; [|split; [|split]]].
  - unfold guarded_call. rewrite Hlook.
    rewrite wrapper_open_rejected by assumption. rewrite Hfb. simpl.
    rewrite insert_id by assumption. reflexivity.
  - simpl. rewrite Hlook. reflexivity.
  - intros now heap' cb' H. simpl. rewrite H. reflexivity.
  - intros now Hle. apply time_left_nonincreasing, Hle.
  - intros now start Hs Hlt. simpl. rewrite Hlook.
    rewrite (time_left_zero_after_timeout now cb start) by assumption.
    reflexivity.
Qed.

(** ** Construction *)

Lemma total_seconds_nonzero (d : timedelta) :
  microseconds d <> 0 -> Qeq_bool (total_seconds d) 0 = false.
Proof.
  intros Hnz. apply not_true_iff_false. intros H.
  apply Qeq_bool_iff in H. unfold total_seconds in H.
  rewrite Qred_correct in H. unfold Qeq in H. simpl in H. lia.
Qed.

Lemma timeout_init_nonzero fc sc (timeout : option timedelta) he ee
    (fb : option (PyFunc Args Value)) :
  Qeq_bool (_timeout (__init__ fc sc timeout he ee fb)) 0 = false.
Proof.
  unfold __init__; cbn [_timeout]. destruct timeout as [d|]; [|reflexivity].
  unfold truthy_timedelta.
  destruct (Z.eqb_spec (microseconds d) 0) as [Hz|Hnz]; cbn [negb].
  - reflexivity.
  - apply total_seconds_nonzero, Hnz.
Qed.

(** C10.  A falsy constructor argument is replaced by the class default:
    a failure or success count of 0 gives the threshold 2, a zero-length
    timeout gives 30 seconds, an empty tuple of handled classes gives
    [(Exception,)], an empty tuple of excluded classes gives none, as do
    the absent arguments.  No arguments produce a threshold of 0 or a
    timeout of 0, through the constructor or through the factory. *)
Theorem falsy_arguments_fall_back_to_defaults
    (fc sc : option Z) (timeout : option timedelta)
    (he ee : option (list PyClass)) (fb : option (PyFunc Args Value))
    (func : PyFunc Args Value) :
  (_max_failure_count (__init__ (Some 0) sc timeout he ee fb) = 2 /\
   _max_failure_count (__init__ None sc timeout he ee fb) = 2) /\
  (_min_success_count (__init__ fc (Some 0) timeout he ee fb) = 2 /\
   _min_success_count (__init__ fc None timeout he ee fb) = 2) /\
  (_timeout (__init__ fc sc (Some (timedelta_seconds 0)) he ee fb) = 30%Q /\
   _timeout (__init__ fc sc None he ee fb) = 30%Q) /\
  (_handle_exceptions (__init__ fc sc timeout (Some []) ee fb)
     = [Exception_cls] /\
   _handle_exceptions (__init__ fc sc timeout None ee fb)
     = [Exception_cls]) /\
  (_excluded_exceptions (__init__ fc sc timeout he (Some []) fb) = None /\
   _excluded_exceptions (__init__ fc sc timeout he None fb) = None) /\
  _fallback_function
    (__init__ fc sc timeout he ee (@None (PyFunc Args Value))) = None /\
  ((_max_failure_count (__init__ fc sc timeout he ee fb) =? 0) = false /\
   (_min_success_count (__init__ fc sc timeout he ee fb) =? 0) = false /\
   Qeq_bool (_timeout (__init__ fc sc timeout he ee fb)) 0 = false) /\
  config (circuit_breaker fc sc timeout he ee fb func) =
  config (__init__ fc sc timeout he ee fb).
Proof.
  repeat split; try reflexivity.
  - unfold __init__; cbn [_max_failure_count]. destruct fc as [n|];
      [|reflexivity].
    unfold truthy_int. destruct (Z.eqb_spec n 0) as [Hz|Hnz]; cbn [negb];
      [reflexivity|]. apply Z.eqb_neq, Hnz.
  - unfold __init__; cbn [_min_success_count]. destruct sc as [n|];
      [|reflexivity].
    unfold truthy_int. destruct (Z.eqb_spec n 0) as [Hz|Hnz]; cbn [negb];
      [reflexivity|]. apply Z.eqb_neq, Hnz.
  - apply timeout_init_nonzero.
Qed.

(** ** Opening stamps are clock readings *)

(** With a clock that never reads zero, no breaker ever holds a zero
    stamp. *)
Lemma stamped_wrapper this func args t_call t_exit cb :
  ~ (t_exit == 0)%Q ->
  stamped cb -> stamped (breaker (wrapper this func args t_call t_exit cb)).
Proof.
  intros Hnz Hst.
  assert (Herr : stamped (_error_pipeline t_exit cb) /\
                 stamped (_success_pipeline t_exit cb) /\
                 stamped (_switch_state t_call HALF_OPEN cb)).
  { destruct (_state cb) eqn:E.
    - rewrite error_pipeline_closed, success_pipeline_other by congruence.
      destruct (_ >=? _); repeat split; try exact Hst;
        intros t Ht; simpl in Ht; injection Ht as <-; exact Hnz.
    - rewrite error_pipeline_open, success_pipeline_other by congruence.
      repeat split; exact Hst.
    - rewrite error_pipeline_half_open, success_pipeline_half_open
        by assumption.
      destruct (_ >=? _); repeat split; try exact Hst;
        intros t Ht; simpl in Ht; injection Ht as <-; exact Hnz. }
  destruct Herr as (He & Hs & Hh).
  assert (Hexec : forall cb', stamped (_error_pipeline t_exit cb') ->
            stamped (_success_pipeline t_exit cb') -> stamped cb' ->
            stamped (breaker (_execute func args t_exit cb'))).
  { intros cb' H1 H2 H3. rewrite breaker_execute. unfold __exit__; simpl.
    destruct (call func args) as [v| |e]; try assumption.
    destruct (_is_need_handle_error cb' (type_of e)); assumption. }
  unfold wrapper. destruct (is_opened cb) eqn:Eo.
  - destruct (_is_func_exec_after_open_state_finished t_call cb).
    + apply BreakerState_eqb_eq in Eo.
      apply Hexec; try assumption.
      * rewrite error_pipeline_half_open by reflexivity.
        intros t Ht; simpl in Ht; injection Ht as <-; exact Hnz.
      * rewrite success_pipeline_half_open by reflexivity.
        destruct (_ >=? _); exact Hst.
    + destruct (_fallback_function cb); exact Hst.
  - apply Hexec; assumption.
Qed.

Lemma stamped_run this (l : list (Attempt Args Value)) cb :
  Forall (fun a => ~ (a_t_exit a == 0)%Q) l ->
  stamped cb -> stamped (run this l cb).
Proof.
  revert cb. induction l as [|a l IH]; intros cb Hall Hst; simpl;
    [assumption|].
  inversion Hall; subst. apply IH; [assumption|].
  apply stamped_wrapper; assumption.
Qed.

Lemma stamped_new fc sc timeout he ee
    (fb : option (PyFunc Args Value)) func :
  stamped (circuit_breaker fc sc timeout he ee fb func).
Proof. intros t Ht. discriminate. Qed.

(** A stamp of exactly zero is falsy: the gate treats it as no stamp. *)
Remark zero_stamp_counts_as_absent now cb :
  _start_time_open_state cb = Some 0%Q ->
  _is_func_exec_after_open_state_finished now cb = true /\
  time_left_in_open_state now cb = 0%Q.
Proof.
  intros H. unfold _is_func_exec_after_open_state_finished,
    time_left_in_open_state. rewrite H. split; reflexivity.
Qed.

End Properties.

(** * The properties on the example service *)

Import Scenario.

(** The default breaker: two failures open it at clock 100; a call at 110
    is rejected; a call at 131 runs as the trial; two successes close it
    with a zero failure counter. *)
Example default_breaker_cycle :
  _state opened = OPEN /\
  _start_time_open_state opened = Some 100%Q /\
  result (attempt 0%nat (ok_at 110) opened) = Raised (CircuitOpenError 0%nat) /\
  _state half_opened = HALF_OPEN /\
  _state recovered = CLOSED /\
  _failure_counter recovered = 0.
Proof. repeat split. Qed.

(** With a fallback every call on the open breaker returns the fallback's
    result. *)
Example fallback_while_open :
  result (attempt 0%nat (ok_at 110) opened_fb) = Returned (-5) /\
  result (attempt 0%nat (fail_at 120) opened_fb) = Returned (-5).
Proof. split; reflexivity. Qed.

(** Five excluded errors leave the breaker closed. *)
Example excluded_errors_keep_closed :
  let a := mkAttempt rejecting 5 10 11 in
  run 0%nat [a; a; a; a; a] fresh_excl = fresh_excl.
Proof. reflexivity. Qed.

Lemma closed_failures_open_at_threshold_witness :
  _state (run 0%nat ([fail_at 98] ++ [fail_at 99]) fresh) = OPEN /\
  _start_time_open_state (run 0%nat ([fail_at 98] ++ [fail_at 99]) fresh)
    = Some (a_t_exit (fail_at 99)).
Proof.
  destruct (closed_failures_open_at_threshold 0%nat fresh eq_refl) as [_ H].
  assert (Hpos : 1 <= _max_failure_count fresh) by (vm_compute; discriminate).
  destruct (H eq_refl Hpos [fail_at 98] (fail_at 99) eq_refl)
    as (_ & H1 & _ & H2).
  - repeat constructor.
  - split; assumption.
Defined.


Lemma half_open_success_and_failure_witness :
  _state (snd (__exit__ None 134 half_opened)) = CLOSED /\
  _state (snd (__exit__ (Some ValueError_cls) 134 half_opened)) = OPEN.
Proof.
  destruct (half_open_success_and_failure half_opened eq_refl)
    as (Hs & Hf & _).
  destruct (Hs 134%Q) as (_ & Hclose & _).
  destruct (Hf 134%Q ValueError_cls eq_refl) as (Hopen & _).
  split; [|exact Hopen].
  apply Hclose. vm_compute. discriminate.
Defined.




Lemma classifier_counts_handled_not_excluded_witness :
  ~ (exists d, In d [ValidationError_cls] /\
               issubclass_of ValueError_cls d = true) /\
  exists d, In d [Exception_cls] /\ issubclass_of ValueError_cls d = true.
Proof.
  apply (proj1 (classifier_counts_handled_not_excluded fresh_excl)
           ValueError_cls).
  reflexivity.
Defined.

Lemma ignored_error_propagates_unchanged_witness :
  wrapper 0%nat rejecting 5 10 11 fresh_excl =
  mkCall (Raised invalid) fresh_excl [CalledFunc 5].
Proof.
  destruct (ignored_error_propagates_unchanged 0%nat rejecting 5 10 11
              fresh_excl invalid eq_refl eq_refl) as (_ & _ & H & _).
  apply H. discriminate.
Defined.

(** C7, as stated, fails: on the breaker that excludes [ValidationError],
    open with a success counter of 2, a call at clock 180 is past the
    cooldown and runs the protected operation, which raises
    [ValidationError]; the error is not counted and reaches the caller, yet
    the breaker is left HalfOpen with a success counter of 0. *)
Lemma ignored_error_on_trial_call_moves_breaker :
  let cb := Cases.reopened_excl in
  let c := wrapper 0%nat rejecting 5 180 181 cb in
  reachable 0%nat cb /\
  _is_need_handle_error cb (type_of invalid) = false /\
  trace c = [CalledFunc 5] /\
  result c = Raised invalid /\
  (_state cb = OPEN /\ _state (breaker c) = HALF_OPEN) /\
  (_success_counter cb = 2 /\ _success_counter (breaker c) = 0) /\
  _state (breaker c) <> _state cb /\
  _success_counter (breaker c) <> _success_counter cb.
Proof.
  cbv zeta. split.
  - unfold Cases.reopened_excl, fresh_excl. apply reachable_run.
    apply reach_new.
  - repeat split; vm_compute; discriminate.
Qed.

Lemma open_error_refers_to_breaker_witness :
  guarded_call 0%nat failing 5 110 111 {[ 0%nat := opened ]} =
    Some (Raised (CircuitOpenError 0%nat), {[ 0%nat := opened ]}) /\
  breaker_name {[ 0%nat := opened ]} (CircuitOpenError 0%nat) = Some "fetch"%string.
Proof.
  assert (Hlook : ({[ 0%nat := opened ]} : gmap ref (CircuitBreaker Z Z))
                    !! 0%nat = Some opened) by (vm_compute; reflexivity).
  destruct (open_error_refers_to_breaker 0%nat failing 5 110 111
              {[ 0%nat := opened ]} opened Hlook eq_refl eq_refl eq_refl)
    as (H1 & H2 & _).
  split; assumption.
Defined.

(** C8, as stated, fails: the breaker opened at clock 100 rejects a call at
    110, when 20 seconds are left; the message of that error built at 120
    reports 10, and built after the breaker has been through a failed
    trial and opened again at 132 it reports 29. *)
Lemma open_error_message_follows_clock :
  let heap : gmap ref (CircuitBreaker Z Z) := {[ 0%nat := opened ]} in
  let e := CircuitOpenError 0%nat in
  guarded_call 0%nat failing 5 110 111 heap = Some (Raised e, heap) /\
  time_left_in_open_state 110 opened = 20%Q /\
  CircuitOpenError__str__ 120 heap e = Some 10%Q /\
  ~ (10 == 20)%Q /\
  (exists heap',
     guarded_call 0%nat failing 5 131 132 heap = Some (Raised boom, heap') /\
     CircuitOpenError__str__ 133 heap' e = Some 29%Q) /\
  ~ (29 == 20)%Q.
Proof.
  cbv zeta. repeat split.
  - vm_compute. discriminate.
  - eexists. split; reflexivity.
  - vm_compute. discriminate.
Qed.

(** * Further properties of the breaker *)

Section Coverage.

Context {Args Value : Type}.

Implicit Types self cb : CircuitBreaker Args Value.
Implicit Types a : Attempt Args Value.
Implicit Types func : PyFunc Args Value.

(** ** Every way a call can change the breaker *)

Lemma exit_cases exc_type now cb :
  let cb' := snd (__exit__ exc_type now cb) in
  cb' = cb \/
  (_state cb = CLOSED /\
   _failure_counter cb + 1 < _max_failure_count cb /\
   cb' = set_failure_counter (_failure_counter cb + 1) cb) \/
  (_state cb = CLOSED /\
   _failure_counter cb + 1 >= _max_failure_count cb /\
   cb' = set_start_time_open_state (Some now)
           (set_state OPEN
              (set_failure_counter (_failure_counter cb + 1) cb))) \/
  (_state cb = HALF_OPEN /\
   cb' = set_start_time_open_state (Some now)
           (set_state OPEN (set_success_counter 0 cb))) \/
  (_state cb = HALF_OPEN /\
   _success_counter cb + 1 < _min_success_count cb /\
   cb' = set_success_counter (_success_counter cb + 1) cb) \/
  (_state cb = HALF_OPEN /\
   _success_counter cb + 1 >= _min_success_count cb /\
   cb' = set_failure_counter 0
           (set_state CLOSED
              (set_success_counter (_success_counter cb + 1) cb))).
Proof.
  unfold __exit__; simpl.
  destruct exc_type as [ty|].
  - destruct (_is_need_handle_error cb ty); [|left; reflexivity].
    destruct (_state cb) eqn:E.
    + rewrite error_pipeline_closed by assumption.
      destruct (Z.geb_spec (_failure_counter cb + 1) (_max_failure_count cb)).
      * right; right; left. repeat split; [lia].
      * right; left. repeat split; lia.
    + rewrite error_pipeline_open by assumption. left; reflexivity.
    + rewrite error_pipeline_half_open by assumption.
      right; right; right; left. split; reflexivity.
  - destruct (_state cb) eqn:E;
      try (rewrite success_pipeline_other by congruence; left; reflexivity).
    rewrite success_pipeline_half_open by assumption.
    destruct (Z.geb_spec (_success_counter cb + 1) (_min_success_count cb)).
    + do 5 right. repeat split; lia.
    + do 4 right; left. repeat split; lia.
Qed.

Lemma wrapper_cases this func args t_call t_exit cb :
  let cb' := breaker (wrapper this func args t_call t_exit cb) in
  (_state cb = OPEN /\
   _is_func_exec_after_open_state_finished t_call cb = false /\ cb' = cb) \/
  (_state cb <> OPEN /\
   exists exc_type, cb' = snd (__exit__ exc_type t_exit cb)) \/
  (_state cb = OPEN /\
   _is_func_exec_after_open_state_finished t_call cb = true /\
   exists exc_type,
     cb' = snd (__exit__ exc_type t_exit (_switch_state t_call HALF_OPEN cb))).
Proof.
  cbv zeta. destruct (_state cb) eqn:E.
  - right; left. split; [congruence|].
    rewrite wrapper_not_open by congruence. rewrite breaker_execute. eauto.
  - destruct (_is_func_exec_after_open_state_finished t_call cb) eqn:G.
    + right; right. repeat split.
      rewrite wrapper_open_trial by assumption.
      rewrite breaker_execute. eauto.
    + left. repeat split.
      rewrite wrapper_open_rejected by assumption.
      destruct (_fallback_function cb); reflexivity.
  - right; left. split; [congruence|].
    rewrite wrapper_not_open by congruence. rewrite breaker_execute. eauto.
Qed.

(** ** Counters stay within their thresholds *)

Lemma in_range_exit exc_type now cb :
  1 <= _max_failure_count cb ->
  _state cb <> OPEN -> in_range cb ->
  in_range (snd (__exit__ exc_type now cb)).
Proof.
  intros Hmx Hno (Hf & Hs & Hc & Hh & Ho).
  destruct (exit_cases exc_type now cb)
    as [H|[(E & Hlt & H)|[(E & Hge & H)|[(E & H)|[(E & Hlt & H)|(E & Hge & H)]]]]];
    rewrite H; clear H; try (repeat split; assumption);
    unfold in_range; simpl; rewrite ?E;
    repeat split; intros; try congruence; try lia; eauto.
  all: try (specialize (Hc E); lia); try (specialize (Hh E); lia).
Qed.

Lemma in_range_wrapper this func args t_call t_exit cb :
  1 <= _max_failure_count cb -> 1 <= _min_success_count cb ->
  in_range cb -> in_range (breaker (wrapper this func args t_call t_exit cb)).
Proof.
  intros Hmx Hmn Hin.
  destruct (wrapper_cases this func args t_call t_exit cb)
    as [(_ & _ & H)|[(Hno & exc & H)|(E & _ & exc & H)]]; rewrite H; clear H.
  - assumption.
  - apply in_range_exit; assumption.
  - apply in_range_exit; [assumption|discriminate|].
    destruct Hin as (Hf & Hs & Hc & Hh & Ho).
    unfold in_range; simpl.
    repeat split; intros; try congruence; try lia.
Qed.

(** X1.  From any fresh breaker with thresholds of at least 1, whatever
    calls are made, both counters stay between 0 and their thresholds; a
    closed breaker has fewer failures than the failure threshold, a
    half-open one fewer successes than the success threshold, and an open
    one always has an opening stamp. *)
Theorem reachable_counters_in_range this cb :
  reachable this cb ->
  1 <= _max_failure_count cb ->
  1 <= _min_success_count cb ->
  in_range cb.
Proof.
  induction 1 as [fc sc timeout he ee fb func|cb a Hr IH]; intros Hmx Hmn.
  - unfold in_range. simpl in *. repeat split; intros; try lia; discriminate.
  - assert (Hcfg := config_wrapper this (a_func a) (a_args a) (a_t_call a)
                      (a_t_exit a) cb).
    fold (attempt this a cb) in Hcfg. unfold config in Hcfg.
    injection Hcfg as Hmx' Hmn' _ _ _ _.
    rewrite Hmx' in Hmx. rewrite Hmn' in Hmn.
    apply in_range_wrapper; auto.
Qed.

(** ** What a call keeps *)


Lemma stamp_exit exc_type now cb :
  let cb' := snd (__exit__ exc_type now cb) in
  _start_time_open_state cb' = _start_time_open_state cb \/
  (_state cb' = OPEN /\ _start_time_open_state cb' = Some now).
Proof.
  destruct (exit_cases exc_type now cb)
    as [H|[(_ & _ & H)|[(_ & _ & H)|[(_ & H)|[(_ & _ & H)|(_ & _ & H)]]]]];
    cbv zeta; rewrite H; simpl; auto.
Qed.


(** X3.  The moves of the state machine in one guarded call: a closed
    breaker never becomes HalfOpen; an open breaker stays Open unless the
    cooldown gate lets the call through; and a breaker that becomes Closed
    has a failure counter of 0. *)
Theorem call_moves_of_state this func args t_call t_exit cb :
  let cb' := breaker (wrapper this func args t_call t_exit cb) in
  (_state cb = CLOSED -> _state cb' <> HALF_OPEN) /\
  (_state cb = OPEN -> _state cb' <> OPEN ->
   _is_func_exec_after_open_state_finished t_call cb = true) /\
  (_state cb <> CLOSED -> _state cb' = CLOSED -> _failure_counter cb' = 0).
Proof.
  cbv zeta.
  destruct (wrapper_cases this func args t_call t_exit cb)
    as [(E & G & H)|[(Hno & exc & H)|(E & G & exc & H)]]; rewrite H; clear H.
  - repeat split; intros; congruence.
  - destruct (exit_cases exc t_exit cb)
      as [H|[(E & _ & H)|[(E & _ & H)|[(E & H)|[(E & _ & H)|(E & _ & H)]]]]];
      rewrite H; simpl; repeat split; intros; congruence.
  - destruct (exit_cases exc t_exit (_switch_state t_call HALF_OPEN cb))
      as [H|[(E' & _ & H)|[(E' & _ & H)|[(E' & H)|[(E' & _ & H)|(E' & _ & H)]]]]];
      rewrite H; simpl in *; repeat split; intros; congruence.
Qed.

(** ** Time left *)

Lemma Qgtb_cases (a b : Q) :
  (Qgtb a b = true /\ (b < a)%Q) \/ (Qgtb a b = false /\ (a <= b)%Q).
Proof.
  destruct (Qgtb a b) eqn:E; [left|right]; split; try reflexivity.
  - apply Qgtb_lt, E.
  - apply Qgtb_le, E.
Qed.

(** X4.  The time left is never negative.  When the cooldown gate lets a
    call through, the time left is 0; when the gate rejects, there is a
    stamp and the time left is the timeout less the time since the stamp.
    With a timeout of at least 0 and a clock not before the stamp, the
    time left is at most the timeout. *)
Theorem time_left_matches_gate now cb :
  (0 <= time_left_in_open_state now cb)%Q /\
  (_is_func_exec_after_open_state_finished now cb = true ->
   time_left_in_open_state now cb = 0%Q) /\
  (_is_func_exec_after_open_state_finished now cb = false ->
   exists start,
     _start_time_open_state cb = Some start /\
     time_left_in_open_state now cb = (_timeout cb - (now - start))%Q) /\
  ((0 <= _timeout cb)%Q ->
   (forall start, _start_time_open_state cb = Some start ->
                  (start <= now)%Q) ->
   (time_left_in_open_state now cb <= _timeout cb)%Q).
Proof.
  unfold time_left_in_open_state, _is_func_exec_after_open_state_finished.
  destruct (_start_time_open_state cb) as [start|].
  - destruct (negb (truthy_float (Some start))).
    + repeat split; try discriminate; try apply Qle_refl. intros H _. exact H.
    + cbv zeta.
      destruct (Qgtb_cases (now - start) (_timeout cb)) as [[E H]|[E H]];
        rewrite E; repeat split; try discriminate; try apply Qle_refl;
        try lra; eauto;
        intros H0 Hs; specialize (Hs start eq_refl); lra.
  - repeat split; try discriminate; try apply Qle_refl. intros H _. exact H.
Qed.

Lemma cooled_same t cb cb' :
  _start_time_open_state cb' = _start_time_open_state cb ->
  _timeout cb' = _timeout cb ->
  cooled t cb -> cooled t cb'.
Proof. unfold cooled. intros H1 H2 Hc. rewrite H1, H2. exact Hc. Qed.

Lemma cooled_mono t t' cb : (t <= t')%Q -> cooled t cb -> cooled t' cb.
Proof.
  unfold cooled. intros Hle Hc s Hs Ht. specialize (Hc s Hs Ht). lra.
Qed.

Lemma gate_cooled t cb :
  _is_func_exec_after_open_state_finished t cb = true -> cooled t cb.
Proof.
  unfold _is_func_exec_after_open_state_finished, cooled.
  intros G s Hs Ht. rewrite Hs in G. rewrite Ht in G. simpl negb in G.
  cbv iota zeta in G.
  destruct (Qgtb_cases (t - s) (_timeout cb)) as [[E H]|[E H]];
    rewrite E in G; [exact H|discriminate].
Qed.

Lemma cooled_gate t cb :
  cooled t cb ->
  _is_func_exec_after_open_state_finished t cb = true /\
  time_left_in_open_state t cb = 0%Q.
Proof.
  unfold _is_func_exec_after_open_state_finished, time_left_in_open_state,
    cooled.
  intros Hc. destruct (_start_time_open_state cb) as [s|]; [|split; reflexivity].
  destruct (truthy_float (Some s)) eqn:Ht; simpl negb; cbv iota zeta;
    [|split; reflexivity].
  specialize (Hc s eq_refl Ht). apply Qgtb_lt in Hc. rewrite Hc.
  split; reflexivity.
Qed.

Lemma timeout_exit exc_type now cb :
  _timeout (snd (__exit__ exc_type now cb)) = _timeout cb.
Proof.
  assert (H := config_exit exc_type now cb). unfold config in H.
  injection H as _ _ H _ _ _. exact H.
Qed.

Lemma cooled_exit exc_type t t' cb :
  (t <= t')%Q -> cooled t cb ->
  _state (snd (__exit__ exc_type t' cb)) <> OPEN ->
  cooled t' (snd (__exit__ exc_type t' cb)).
Proof.
  intros Hle Hc Hno.
  destruct (stamp_exit exc_type t' cb) as [H|[H _]]; [|contradiction].
  apply (cooled_same t' cb); [exact H|apply timeout_exit|].
  apply (cooled_mono t); assumption.
Qed.

Lemma cooled_wrapper this func args t t_call t_exit cb :
  (t <= t_call)%Q -> (t_call <= t_exit)%Q ->
  (_state cb <> OPEN -> cooled t cb) ->
  _state (breaker (wrapper this func args t_call t_exit cb)) <> OPEN ->
  cooled t_exit (breaker (wrapper this func args t_call t_exit cb)).
Proof.
  intros H1 H2 Hinv.
  destruct (wrapper_cases this func args t_call t_exit cb)
    as [(E & _ & H)|[(Hno & exc & H)|(E & G & exc & H)]]; rewrite H; clear H;
    intros Hno'.
  - contradiction.
  - apply (cooled_exit exc t); [lra|auto|assumption].
  - apply (cooled_exit exc t_call); [assumption| |assumption].
    apply (cooled_same t_call cb); try reflexivity. apply gate_cooled, G.
Qed.

Lemma cooled_run this (l : list (Attempt Args Value)) :
  forall t cb,
    clock_ordered t l ->
    (_state cb <> OPEN -> cooled t cb) ->
    _state (run this l cb) <> OPEN ->
    cooled (last_clock t l) (run this l cb).
Proof.
  induction l as [|a l IH]; intros t cb Hord Hinv Hno; simpl in *.
  - auto.
  - destruct Hord as (H1 & H2 & Hord).
    apply IH; [assumption| |assumption].
    apply (cooled_wrapper this _ _ t); assumption.
Qed.

(** X5.  With a clock that never goes back, a breaker that started fresh
    and is not Open after a run of calls reports a time left of 0 at every
    later clock, and its cooldown gate is passed. *)
Theorem time_left_zero_unless_open
    this (l : list (Attempt Args Value)) t0 now
    fc sc timeout he ee fb func :
  clock_ordered t0 l ->
  (last_clock t0 l <= now)%Q ->
  _state (run this l (circuit_breaker fc sc timeout he ee fb func)) <> OPEN ->
  time_left_in_open_state now
    (run this l (circuit_breaker fc sc timeout he ee fb func)) = 0%Q /\
  _is_func_exec_after_open_state_finished now
    (run this l (circuit_breaker fc sc timeout he ee fb func)) = true.
Proof.
  intros Hord Hle Hno.
  assert (Hc : cooled (last_clock t0 l)
                 (run this l (circuit_breaker fc sc timeout he ee fb func))).
  { apply cooled_run; [assumption| |assumption].
    intros _ s Hs. discriminate. }
  destruct (cooled_gate now
              (run this l (circuit_breaker fc sc timeout he ee fb func)))
    as [G T]; [|split; assumption].
  apply (cooled_mono (last_clock t0 l)); assumption.
Qed.

(** ** Closed: failures need not be consecutive *)

Lemma set_failure_counter_same cb : set_failure_counter (_failure_counter cb) cb = cb.
Proof. destruct cb; reflexivity. Qed.

Lemma tally_counted_nonneg cb (l : list (Attempt Args Value)) :
  0 <= tally_counted cb l.
Proof.
  induction l as [|a l IH]; simpl; [lia|].
  destruct (counted_failure cb (call (a_func a) (a_args a))); lia.
Qed.

Lemma tally_counted_config cb cb' (l : list (Attempt Args Value)) :
  config cb = config cb' -> tally_counted cb l = tally_counted cb' l.
Proof.
  intros H. induction l as [|a l IH]; simpl; [reflexivity|].
  rewrite IH, (counted_failure_config cb cb') by assumption. reflexivity.
Qed.

Lemma attempt_uncounted_closed this a cb :
  _state cb = CLOSED ->
  counted_failure cb (call (a_func a) (a_args a)) = false ->
  breaker (attempt this a cb) = cb.
Proof.
  intros Hst Hc. unfold attempt.
  rewrite wrapper_not_open by congruence. rewrite breaker_execute.
  unfold __exit__; simpl.
  destruct (call (a_func a) (a_args a)) as [v| |e]; simpl in Hc;
    try (apply success_pipeline_other; congruence).
  rewrite Hc. reflexivity.
Qed.

Lemma run_closed_tally this (l : list (Attempt Args Value)) :
  forall cb,
    _state cb = CLOSED ->
    _failure_counter cb + tally_counted cb l < _max_failure_count cb ->
    run this l cb =
    set_failure_counter (_failure_counter cb + tally_counted cb l) cb.
Proof.
  induction l as [|a l IH]; intros cb Hst Hlt; simpl in *.
  - rewrite Z.add_0_r. symmetry. apply set_failure_counter_same.
  - assert (Hn := tally_counted_nonneg cb l).
    destruct (counted_failure cb (call (a_func a) (a_args a))) eqn:Hc.
    + rewrite attempt_counted_closed, error_pipeline_closed by assumption.
      destruct (Z.geb_spec (_failure_counter cb + 1) (_max_failure_count cb));
        [lia|].
      rewrite IH; simpl.
      * rewrite (tally_counted_config _ cb) by reflexivity.
        unfold set_failure_counter; simpl. f_equal. lia.
      * assumption.
      * rewrite (tally_counted_config _ cb) by reflexivity. lia.
    + rewrite attempt_uncounted_closed by assumption.
      rewrite IH by (try assumption; lia). reflexivity.
Qed.

(** X6.  On a closed breaker successes and uncounted errors change
    nothing, so counted failures add up across them: while their number
    keeps the counter below the threshold, a run of calls only moves the
    failure counter, by the number of counted failures in the run; the
    counted failure that brings the counter to the threshold opens the
    breaker, stamped with the clock at the end of that call. *)
Theorem closed_failures_add_up_across_successes
    this (l : list (Attempt Args Value)) a cb :
  _state cb = CLOSED ->
  _failure_counter cb + tally_counted cb l < _max_failure_count cb ->
  run this l cb =
    set_failure_counter (_failure_counter cb + tally_counted cb l) cb /\
  (counted_failure cb (call (a_func a) (a_args a)) = true ->
   _failure_counter cb + tally_counted cb l + 1 >= _max_failure_count cb ->
   _state (run this (l ++ [a]) cb) = OPEN /\
   _start_time_open_state (run this (l ++ [a]) cb) = Some (a_t_exit a)).
Proof.
  intros Hst Hlt. split; [apply run_closed_tally; assumption|].
  intros Hc Hge. rewrite run_app, (run_closed_tally this l cb) by assumption.
  cbn [run].
  set (b := set_failure_counter (_failure_counter cb + tally_counted cb l) cb).
  assert (Hb : _state b = CLOSED) by exact Hst.
  assert (Hcb : counted_failure b (call (a_func a) (a_args a)) = true).
  { rewrite (counted_failure_config b cb) by reflexivity. assumption. }
  rewrite attempt_counted_closed, error_pipeline_closed by assumption.
  subst b. simpl.
  destruct (Z.geb_spec (_failure_counter cb + tally_counted cb l + 1)
              (_max_failure_count cb)); [|lia].
  split; reflexivity.
Qed.

(** ** HalfOpen: successes in a row *)

Lemma set_success_counter_same cb : set_success_counter (_success_counter cb) cb = cb.
Proof. destruct cb; reflexivity. Qed.

Lemma attempt_returned_half_open this a cb :
  _state cb = HALF_OPEN ->
  returned (call (a_func a) (a_args a)) = true ->
  breaker (attempt this a cb) = _success_pipeline (a_t_exit a) cb.
Proof.
  intros Hst Hr. unfold attempt.
  rewrite wrapper_not_open by congruence. rewrite breaker_execute.
  destruct (call (a_func a) (a_args a)); simpl in Hr; try discriminate;
    reflexivity.
Qed.

Lemma run_half_open_returned this (l : list (Attempt Args Value)) :
  forall cb,
    _state cb = HALF_OPEN ->
    Forall (fun a => returned (call (a_func a) (a_args a)) = true) l ->
    _success_counter cb + Z.of_nat (length l) < _min_success_count cb ->
    run this l cb =
    set_success_counter (_success_counter cb + Z.of_nat (length l)) cb.
Proof.
  induction l as [|a l IH]; intros cb Hst Hall Hlt.
  - simpl. rewrite Z.add_0_r. symmetry. apply set_success_counter_same.
  - inversion Hall as [|? ? Ha Hl]; subst. simpl length in *. cbn [run].
    rewrite attempt_returned_half_open, success_pipeline_half_open
      by assumption.
    destruct (Z.geb_spec (_success_counter cb + 1) (_min_success_count cb));
      [lia|].
    rewrite IH; simpl; try assumption; try lia.
    unfold set_success_counter; simpl. f_equal. lia.
Qed.

Lemma run_open_trial this a (l : list (Attempt Args Value)) cb :
  _state cb = OPEN ->
  _is_func_exec_after_open_state_finished (a_t_call a) cb = true ->
  run this (a :: l) cb =
  run this (a :: l) (_switch_state (a_t_call a) HALF_OPEN cb).
Proof.
  intros Hst G. cbn [run]. unfold attempt.
  rewrite wrapper_open_trial by assumption.
  rewrite (wrapper_not_open this _ _ _ _ (_switch_state _ HALF_OPEN cb))
    by discriminate.
  reflexivity.
Qed.

(** X7.  On an open breaker whose cooldown is over for the first call of
    a run, as many calls in a row that return normally as the success
    threshold close the breaker: the first of them is the trial, the
    breaker is HalfOpen after each call but the last, counting the
    successes from 1, and Closed with a failure counter of 0 after the
    last. *)
Theorem successes_after_cooldown_close
    this (l : list (Attempt Args Value)) a cb :
  _state cb = OPEN ->
  _is_func_exec_after_open_state_finished (a_t_call (hd a l)) cb = true ->
  Forall (fun a => returned (call (a_func a) (a_args a)) = true) (l ++ [a]) ->
  Z.of_nat (length (l ++ [a])) = _min_success_count cb ->
  (forall k, (1 <= k <= length l)%nat ->
     _state (run this (firstn k (l ++ [a])) cb) = HALF_OPEN /\
     _success_counter (run this (firstn k (l ++ [a])) cb) = Z.of_nat k) /\
  _state (run this (l ++ [a]) cb) = CLOSED /\
  _failure_counter (run this (l ++ [a]) cb) = 0.
Proof.
  intros Hst G Hall Hlen.
  rewrite length_app in Hlen. simpl in Hlen.
  apply Forall_app in Hall. destruct Hall as [Hl Ha].
  inversion Ha as [|? ? Hlast _]; subst.
  set (b := _switch_state (a_t_call (hd a l)) HALF_OPEN cb).
  assert (Hb : _state b = HALF_OPEN) by reflexivity.
  assert (Hsc : _success_counter b = 0) by reflexivity.
  assert (Hmn : _min_success_count b = _min_success_count cb) by reflexivity.
  assert (Hrun : forall l', l' <> [] -> hd a l' = hd a l ->
            run this l' cb = run this l' b).
  { intros l' Hne Hhd. destruct l' as [|x l']; [congruence|].
    simpl in Hhd. subst b. rewrite <- Hhd.
    apply run_open_trial; [assumption|]. rewrite Hhd. assumption. }
  split.
  - intros k Hk. rewrite firstn_app.
    replace (k - length l)%nat with 0%nat by lia.
    rewrite firstn_O, app_nil_r.
    destruct l as [|x l]; [simpl in Hk; lia|].
    destruct k as [|k]; [lia|].
    rewrite Hrun; [|simpl; congruence|reflexivity].
    rewrite run_half_open_returned; try assumption.
    + rewrite Hsc. simpl _state. simpl _success_counter.
      split; [reflexivity|]. rewrite length_firstn. simpl in Hk. lia.
    + apply Forall_take. assumption.
    + rewrite Hsc, Hmn, length_firstn. lia.
  - rewrite Hrun; [|destruct l; simpl; congruence|destruct l; reflexivity].
    assert (Hlt : _success_counter b + Z.of_nat (length l)
                  < _min_success_count b) by (rewrite Hsc, Hmn; lia).
    rewrite run_app, (run_half_open_returned this l b) by assumption.
    cbn [run].
    set (b' := set_success_counter
                 (_success_counter b + Z.of_nat (length l)) b).
    assert (Hb' : _state b' = HALF_OPEN) by exact Hb.
    rewrite attempt_returned_half_open, success_pipeline_half_open
      by assumption.
    subst b'. simpl.
    match goal with
    | |- context [?x >=? ?y] => destruct (Z.geb_spec x y); [|lia]
    end.
    split; reflexivity.
Qed.

(** ** Open: rejections do not move the breaker *)

Lemma gate_rejects_within_timeout t cb start :
  _start_time_open_state cb = Some start ->
  ~ (start == 0)%Q ->
  (t - start <= _timeout cb)%Q ->
  _is_func_exec_after_open_state_finished t cb = false.
Proof.
  intros Hs Hnz Hle. unfold _is_func_exec_after_open_state_finished.
  rewrite Hs. apply truthy_float_Some in Hnz. rewrite Hnz. simpl negb.
  cbv iota zeta. apply Qgtb_le in Hle. rewrite Hle. reflexivity.
Qed.

(** X8.  While the clock is within the timeout of a nonzero opening
    stamp, any number of calls on the open breaker leave it exactly as it
    was, stamp included, so rejections neither shorten nor extend the
    cooldown, and none of those calls runs the protected operation. *)
Theorem open_breaker_unmoved_by_rejections
    this (l : list (Attempt Args Value)) cb start :
  _state cb = OPEN ->
  _start_time_open_state cb = Some start ->
  ~ (start == 0)%Q ->
  Forall (fun a => (a_t_call a - start <= _timeout cb)%Q) l ->
  run this l cb = cb /\
  Forall (fun a => forall x, ~ In (CalledFunc x) (trace (attempt this a cb))) l.
Proof.
  intros Hst Hs Hnz Hall.
  induction l as [|a l IH]; [split; [reflexivity|constructor]|].
  inversion Hall as [|? ? Ha Hl]; subst.
  assert (Hrej := wrapper_open_rejected this (a_func a) (a_args a)
                    (a_t_call a) (a_t_exit a) cb Hst
                    (gate_rejects_within_timeout _ _ _ Hs Hnz Ha)).
  fold (attempt this a cb) in Hrej.
  destruct (IH Hl) as [IH1 IH2]. split.
  - cbn [run]. rewrite Hrej.
    destruct (_fallback_function cb); simpl; exact IH1.
  - constructor; [|exact IH2].
    rewrite Hrej. intros x.
    destruct (_fallback_function cb); simpl; [|tauto].
    intros [H|[]]. discriminate.
Qed.

(** ** What a call runs and returns *)

(** X9.  A guarded call runs at most one callable and hands its outcome
    to the caller as it is: either the protected operation ran, once, on
    the given arguments and the call's outcome is the operation's (value or
    exception, counted or not); or the breaker was Open, stayed as it was,
    and the outcome is the fallback's on the same arguments or, without a
    fallback, a [CircuitOpenError] referring to this breaker. *)
Theorem call_runs_one_callable this func args t_call t_exit cb :
  let c := wrapper this func args t_call t_exit cb in
  (trace c = [CalledFunc args] /\ result c = call func args) \/
  (_state cb = OPEN /\ breaker c = cb /\
   exists fallback,
     _fallback_function cb = Some fallback /\
     trace c = [CalledFallback args] /\ result c = call fallback args) \/
  (_state cb = OPEN /\ breaker c = cb /\
   _fallback_function cb = None /\
   trace c = [] /\ result c = Raised (CircuitOpenError this)).
Proof.
  cbv zeta. destruct (_state cb) eqn:E.
  - left. rewrite wrapper_not_open by congruence.
    rewrite result_execute. split; reflexivity.
  - destruct (_is_func_exec_after_open_state_finished t_call cb) eqn:G.
    + left. rewrite wrapper_open_trial by assumption.
      rewrite result_execute. split; reflexivity.
    + right. rewrite wrapper_open_rejected by assumption.
      destruct (_fallback_function cb) as [fb|]; simpl.
      * left. repeat split. exists fb. repeat split.
      * right. repeat split.
  - left. rewrite wrapper_not_open by congruence.
    rewrite result_execute. split; reflexivity.
Qed.

(** ** Unusual configurations *)

(** X10.  A negative timeout switches rejection off: with a clock not
    before the opening stamp, every call runs the protected operation,
    whatever the state of the breaker. *)
Theorem negative_timeout_never_rejects this func args t_call t_exit cb :
  (_timeout cb < 0)%Q ->
  (forall start, _start_time_open_state cb = Some start ->
                 (start <= t_call)%Q) ->
  trace (wrapper this func args t_call t_exit cb) = [CalledFunc args] /\
  result (wrapper this func args t_call t_exit cb) = call func args.
Proof.
  intros Hneg Hclock.
  assert (G : _is_func_exec_after_open_state_finished t_call cb = true).
  { unfold _is_func_exec_after_open_state_finished.
    destruct (_start_time_open_state cb) as [s|]; [|reflexivity].
    destruct (negb (truthy_float (Some s))); [reflexivity|]. cbv zeta.
    specialize (Hclock s eq_refl).
    assert (H : (_timeout cb < t_call - s)%Q) by lra.
    apply Qgtb_lt in H. rewrite H. reflexivity. }
  destruct (_state cb) eqn:E.
  - rewrite wrapper_not_open by congruence.
    rewrite result_execute. split; reflexivity.
  - rewrite wrapper_open_trial by assumption.
    rewrite result_execute. split; reflexivity.
  - rewrite wrapper_not_open by congruence.
    rewrite result_execute. split; reflexivity.
Qed.

(** X11.  Thresholds of 1 or less act at once.  With a failure threshold
    of at most 1, one counted failure opens a closed breaker; with a
    success threshold of at most 1, the trial call that returns normally
    takes an open breaker straight to Closed with a failure counter of
    0. *)
Theorem thresholds_of_one_act_at_once this func args t_call t_exit cb :
  (_state cb = CLOSED ->
   _max_failure_count cb <= 1 ->
   0 <= _failure_counter cb ->
   counted_failure cb (call func args) = true ->
   _state (breaker (wrapper this func args t_call t_exit cb)) = OPEN /\
   _start_time_open_state (breaker (wrapper this func args t_call t_exit cb))
     = Some t_exit) /\
  (_state cb = OPEN ->
   _min_success_count cb <= 1 ->
   _is_func_exec_after_open_state_finished t_call cb = true ->
   returned (call func args) = true ->
   _state (breaker (wrapper this func args t_call t_exit cb)) = CLOSED /\
   _failure_counter (breaker (wrapper this func args t_call t_exit cb)) = 0).
Proof.
  split.
  - intros Hst Hmx Hfc Hc.
    assert (H := attempt_counted_closed this
                   (mkAttempt func args t_call t_exit) cb Hst Hc).
    unfold attempt in H; simpl in H. rewrite H.
    rewrite error_pipeline_closed by assumption.
    destruct (Z.geb_spec (_failure_counter cb + 1) (_max_failure_count cb));
      [|lia].
    split; reflexivity.
  - intros Hst Hmn G Hr.
    rewrite wrapper_open_trial by assumption.
    assert (H := attempt_returned_half_open this
                   (mkAttempt func args t_call t_exit)
                   (_switch_state t_call HALF_OPEN cb) eq_refl Hr).
    unfold attempt in H; simpl a_func in H; simpl a_args in H;
      simpl a_t_call in H; simpl a_t_exit in H.
    rewrite wrapper_not_open in H by discriminate. rewrite H.
    rewrite success_pipeline_half_open by reflexivity.
    simpl.
    match goal with
    | |- context [?x >=? ?y] => destruct (Z.geb_spec x y); [|lia]
    end.
    split; reflexivity.
Qed.

(** ** Attaching *)

(** X12.  Attaching a breaker to a function changes nothing but the
    label.  A breaker without a label takes the function's qualified
    name; once the label is a non-empty string, attaching the same
    breaker to another function leaves the breaker as it is. *)
Theorem decorator_labels_once func func' cb :
  (_state (decorator func cb) = _state cb /\
   _failure_counter (decorator func cb) = _failure_counter cb /\
   _success_counter (decorator func cb) = _success_counter cb /\
   _start_time_open_state (decorator func cb) = _start_time_open_state cb /\
   config (decorator func cb) = config cb) /\
  (name cb = None -> name (decorator func cb) = Some (__qualname__ func)) /\
  (name cb = None -> __qualname__ func <> EmptyString ->
   decorator func' (decorator func cb) = decorator func cb).
Proof.
  split; [repeat split|split].
  - intros Hn. unfold decorator. rewrite Hn. reflexivity.
  - intros Hn Hq. unfold decorator. rewrite Hn.
    cbn [name set_name truthy_str negb].
    destruct (String.eqb_spec (__qualname__ func) EmptyString) as [He|_];
      [contradiction|].
    reflexivity.
Qed.

(** ** The default classes *)

Lemma existsb_eqb_In (x : string) (l : list string) :
  existsb (String.eqb x) l = true <-> In x l.
Proof.
  rewrite existsb_exists. split.
  - intros (y & Hy & He). apply String.eqb_eq in He. subst. assumption.
  - intros H. exists x. split; [assumption|apply String.eqb_refl].
Qed.

(** X13.  A breaker built without handled and excluded classes counts an
    error exactly when [Exception] is among the classes its class derives
    from: exits such as [KeyboardInterrupt] are never counted, and the
    [CircuitOpenError] of another breaker is. *)
Theorem default_breaker_counts_exceptions
    fc sc timeout (fb : option (PyFunc Args Value)) (ty : PyClass) other :
  (_is_need_handle_error (__init__ fc sc timeout None None fb) ty = true <->
   In "Exception"%string (cls_mro ty)) /\
  counted_failure (__init__ fc sc timeout None None fb)
    (Raised (CircuitOpenError other)) = true.
Proof.
  split; [|reflexivity].
  change (_is_need_handle_error (__init__ fc sc timeout None None fb) ty)
    with (issubclass ty [Exception_cls]).
  rewrite issubclass_exists. split.
  - intros (d & [<-|[]] & H). apply existsb_eqb_In in H. exact H.
  - intros H. exists Exception_cls. split; [left; reflexivity|].
    apply existsb_eqb_In. exact H.
Qed.

(** ** Stamps under a clock that never reads zero *)

Lemma open_has_stamp_exit exc_type now cb :
  _state cb <> OPEN ->
  _state (snd (__exit__ exc_type now cb)) = OPEN ->
  _start_time_open_state (snd (__exit__ exc_type now cb)) = Some now.
Proof.
  intros Hno.
  destruct (exit_cases exc_type now cb)
    as [H|[(E & _ & H)|[(E & _ & H)|[(E & H)|[(E & _ & H)|(E & _ & H)]]]]];
    rewrite H; simpl; intros Ho; try congruence; reflexivity.
Qed.

Lemma open_has_stamp_wrapper this func args t_call t_exit cb :
  (_state cb = OPEN -> exists s, _start_time_open_state cb = Some s) ->
  _state (breaker (wrapper this func args t_call t_exit cb)) = OPEN ->
  exists s,
    _start_time_open_state (breaker (wrapper this func args t_call t_exit cb))
    = Some s.
Proof.
  intros Hinv.
  destruct (wrapper_cases this func args t_call t_exit cb)
    as [(E & _ & H)|[(Hno & exc & H)|(E & _ & exc & H)]]; rewrite H; clear H;
    intros Ho.
  - auto.
  - rewrite open_has_stamp_exit by assumption. eauto.
  - rewrite open_has_stamp_exit by (try assumption; discriminate). eauto.
Qed.

Lemma open_has_stamp_run this (l : list (Attempt Args Value)) :
  forall cb,
    (_state cb = OPEN -> exists s, _start_time_open_state cb = Some s) ->
    _state (run this l cb) = OPEN ->
    exists s, _start_time_open_state (run this l cb) = Some s.
Proof.
  induction l as [|a l IH]; intros cb Hinv; simpl; [assumption|].
  apply IH. apply open_has_stamp_wrapper. assumption.
Qed.

(** X14.  With a clock that never reads zero, a breaker that started
    fresh and is Open after a run of calls has a nonzero opening stamp,
    and its cooldown gate opens exactly when the clock is strictly more
    than the timeout past that stamp; until then the time left is the
    timeout less the time since the stamp. *)
Theorem open_breaker_gate_under_nonzero_clock
    this (l : list (Attempt Args Value)) now
    fc sc timeout he ee fb func :
  Forall (fun a => ~ (a_t_exit a == 0)%Q) l ->
  _state (run this l (circuit_breaker fc sc timeout he ee fb func)) = OPEN ->
  exists start,
    _start_time_open_state
      (run this l (circuit_breaker fc sc timeout he ee fb func)) = Some start /\
    ~ (start == 0)%Q /\
    (_is_func_exec_after_open_state_finished now
       (run this l (circuit_breaker fc sc timeout he ee fb func)) = true <->
     (_timeout (run this l (circuit_breaker fc sc timeout he ee fb func))
      < now - start)%Q) /\
    (_is_func_exec_after_open_state_finished now
       (run this l (circuit_breaker fc sc timeout he ee fb func)) = false ->
     time_left_in_open_state now
       (run this l (circuit_breaker fc sc timeout he ee fb func))
     = (_timeout (run this l (circuit_breaker fc sc timeout he ee fb func))
        - (now - start))%Q).
Proof.
  intros Hall Ho.
  set (cb := run this l (circuit_breaker fc sc timeout he ee fb func)) in *.
  assert (Hst : stamped cb).
  { apply stamped_run; [assumption|apply stamped_new]. }
  destruct (open_has_stamp_run this l
              (circuit_breaker fc sc timeout he ee fb func)) as [s Hs];
    [discriminate|exact Ho|].
  fold cb in Hs. exists s. split; [exact Hs|]. split; [apply Hst, Hs|].
  split.
  - rewrite (cooldown_finished_iff now cb Hst). split.
    + intros [H|(s' & Hs' & Hlt)]; [congruence|]. congruence.
    + intros H. right. eauto.
  - intros G. unfold time_left_in_open_state.
    unfold _is_func_exec_after_open_state_finished in G.
    rewrite Hs in *.
    destruct (negb (truthy_float (Some s))); [discriminate|].
    cbv zeta in *.
    destruct (Qgtb (now - s) (_timeout cb)); [discriminate|reflexivity].
Qed.

End Coverage.

(** * The further properties on the example breakers *)

Import Cases.

Lemma reachable_counters_in_range_witness : in_range recovered.
Proof.
  apply (reachable_counters_in_range 0%nat recovered).
  - unfold recovered, opened, fresh. repeat apply reachable_run.
    apply reach_new.
  - vm_compute. discriminate.
  - vm_compute. discriminate.
Defined.


Lemma call_moves_of_state_witness :
  _state (breaker (wrapper 0%nat failing 5 10 11 fresh)) <> HALF_OPEN /\
  _failure_counter (breaker (wrapper 0%nat working 5 135 136 half_opened)) = 0.
Proof.
  destruct (call_moves_of_state 0%nat failing 5 10 11 fresh) as (H1 & _).
  destruct (call_moves_of_state 0%nat working 5 135 136 half_opened)
    as (_ & _ & H3).
  split.
  - apply H1. reflexivity.
  - apply H3; [discriminate|reflexivity].
Defined.

Lemma time_left_matches_gate_witness :
  time_left_in_open_state 110 opened = (_timeout opened - (110 - 100))%Q /\
  (time_left_in_open_state 110 opened <= _timeout opened)%Q.
Proof.
  destruct (time_left_matches_gate 110 opened) as (_ & _ & H3 & H4).
  split.
  - destruct (H3 eq_refl) as (start & Hs & Ht).
    vm_compute in Hs. injection Hs as <-. exact Ht.
  - apply H4.
    + vm_compute. discriminate.
    + intros start Hs. vm_compute in Hs. injection Hs as <-.
      vm_compute. discriminate.
Defined.

Lemma time_left_zero_unless_open_witness :
  time_left_in_open_state 200
    (run 0%nat cycle (circuit_breaker None None None None None None failing))
  = 0%Q.
Proof.
  assert (Hord : clock_ordered 98 cycle).
  { simpl. repeat split; vm_compute; discriminate. }
  assert (Hle : (last_clock 98 cycle <= 200)%Q) by (vm_compute; discriminate).
  destruct (time_left_zero_unless_open 0%nat cycle 98 200
              None None None None None None failing Hord Hle) as [H _].
  - vm_compute. discriminate.
  - exact H.
Defined.

Lemma closed_failures_add_up_across_successes_witness :
  _failure_counter (run 0%nat [ok_at 1; fail_at 3; ok_at 5] fresh) = 1 /\
  _state (run 0%nat ([ok_at 1; fail_at 3; ok_at 5] ++ [fail_at 7]) fresh) = OPEN.
Proof.
  assert (Hlt : _failure_counter fresh
                + tally_counted fresh [ok_at 1; fail_at 3; ok_at 5]
                < _max_failure_count fresh) by (vm_compute; reflexivity).
  destruct (closed_failures_add_up_across_successes 0%nat
              [ok_at 1; fail_at 3; ok_at 5] (fail_at 7) fresh eq_refl Hlt)
    as [H1 H2].
  split.
  - rewrite H1. reflexivity.
  - apply H2; [reflexivity|vm_compute; discriminate].
Defined.

Lemma successes_after_cooldown_close_witness :
  _state (run 0%nat ([ok_at 131] ++ [ok_at 133]) opened) = CLOSED /\
  _failure_counter (run 0%nat ([ok_at 131] ++ [ok_at 133]) opened) = 0.
Proof.
  destruct (successes_after_cooldown_close 0%nat [ok_at 131] (ok_at 133)
              opened eq_refl eq_refl) as (_ & H).
  - repeat constructor.
  - reflexivity.
  - exact H.
Defined.

Lemma open_breaker_unmoved_by_rejections_witness :
  run 0%nat [fail_at 110; ok_at 120; ok_at 130] opened = opened.
Proof.
  assert (Hnz : ~ (100 == 0)%Q) by (vm_compute; discriminate).
  destruct (open_breaker_unmoved_by_rejections 0%nat
              [fail_at 110; ok_at 120; ok_at 130] opened 100%Q
              eq_refl eq_refl Hnz) as [H _].
  - repeat constructor; vm_compute; discriminate.
  - exact H.
Defined.

Lemma negative_timeout_never_rejects_witness :
  _state impatient = OPEN /\
  trace (wrapper 0%nat working 5 100 101 impatient) = [CalledFunc 5].
Proof.
  split; [reflexivity|].
  assert (Hneg : (_timeout impatient < 0)%Q) by (vm_compute; reflexivity).
  destruct (negative_timeout_never_rejects 0%nat working 5 100 101 impatient
              Hneg) as [H _].
  - intros start Hs. vm_compute in Hs. injection Hs as <-.
    vm_compute. discriminate.
  - exact H.
Defined.

Lemma thresholds_of_one_act_at_once_witness :
  _state (breaker (wrapper 0%nat failing 5 10 11 hasty)) = OPEN /\
  _state (breaker (wrapper 0%nat working 5 50 51
                     (breaker (wrapper 0%nat failing 5 10 11 hasty))))
  = CLOSED.
Proof.
  destruct (thresholds_of_one_act_at_once 0%nat failing 5 10 11 hasty)
    as [H1 _].
  destruct (thresholds_of_one_act_at_once 0%nat working 5 50 51
              (breaker (wrapper 0%nat failing 5 10 11 hasty))) as [_ H2].
  split.
  - apply H1; try reflexivity; vm_compute; discriminate.
  - apply H2; try reflexivity; vm_compute; discriminate.
Defined.

Lemma decorator_labels_once_witness :
  name (decorator cached (decorator failing detached)) = Some "fetch"%string.
Proof.
  destruct (decorator_labels_once failing cached detached) as (_ & H1 & H2).
  rewrite H2; [apply H1; reflexivity|reflexivity|discriminate].
Defined.

Lemma default_breaker_counts_exceptions_witness :
  _is_need_handle_error detached ValueError_cls = true /\
  ~ In "Exception"%string (cls_mro KeyboardInterrupt_cls).
Proof.
  destruct (default_breaker_counts_exceptions None None None
              (@None (PyFunc Z Z)) ValueError_cls 0%nat) as [H1 _].
  destruct (default_breaker_counts_exceptions None None None
              (@None (PyFunc Z Z)) KeyboardInterrupt_cls 0%nat) as [H2 _].
  split.
  - apply H1. simpl. tauto.
  - intros H. apply H2 in H. vm_compute in H. discriminate.
Defined.

Lemma open_breaker_gate_under_nonzero_clock_witness :
  exists start,
    _start_time_open_state
      (run 0%nat [fail_at 98; fail_at 99]
         (circuit_breaker None None None None None None failing))
    = Some start /\
    ~ (start == 0)%Q.
Proof.
  destruct (open_breaker_gate_under_nonzero_clock 0%nat
              [fail_at 98; fail_at 99] 110
              None None None None None None failing)
    as (start & Hs & Hnz & _).
  - repeat constructor; vm_compute; discriminate.
  - reflexivity.
  - exists start. split; assumption.
Defined.

(** ** The countdown *)

Section Countdown.

Context {Args Value : Type}.

Implicit Types cb : CircuitBreaker Args Value.


End Countdown.

